(** * boxman: systemd unit-file generation and service listing

    A shallow embedding of the Go packages [system], [systemd] and of the
    HTTP handlers of [main.go], together with the part of the Go standard
    library they call ([strings], [bufio], [path/filepath], [os], [fmt]).

    Go strings are byte sequences: they are modelled as [string], one
    [ascii] per byte.  The Go [int] of [LimitNOFILE] is modelled as [Z]. *)

From Stdlib Require Import String Ascii List ZArith Lia Bool Arith.
From Stdlib Require Decimal DecimalString DecimalPos DecimalZ.
Import ListNotations.
Open Scope string_scope.

(* ================================================================== *)
(** ** Go standard library: package [strings] and [bufio.ScanLines]    *)
(* ================================================================== *)

Module strings.

(** [strings.HasPrefix(s, prefix)]. *)
Fixpoint HasPrefix (s prefix : string) {struct prefix} : bool :=
  match prefix, s with
  | EmptyString, _ => true
  | String _ _, EmptyString => false
  | String a p, String b r => Ascii.eqb a b && HasPrefix r p
  end.

(** [strings.Contains(s, substr)]: [substr] occurs in [s] as a run of
    consecutive bytes. *)
Fixpoint Contains (s substr : string) : bool :=
  HasPrefix s substr ||
  match s with
  | EmptyString => false
  | String _ r => Contains r substr
  end.

(** [strings.Join(elems, sep)]. *)
Fixpoint Join (elems : list string) (sep : string) : string :=
  match elems with
  | [] => ""
  | [e] => e
  | e :: rest => e ++ sep ++ Join rest sep
  end.

(** The six ASCII bytes of [unicode.IsSpace]:
    tab, line feed, vertical tab, form feed, carriage return, space. *)
Definition asciiSpace (c : ascii) : bool :=
  match N_of_ascii c with
  | 9%N | 10%N | 11%N | 12%N | 13%N | 32%N => true
  | _ => false
  end.

(** Number of bytes of the white-space rune that starts [s], 0 when [s]
    does not start with one.  Beside the ASCII bytes, [unicode.IsSpace]
    holds of U+0085, U+00A0, U+1680, U+2000..U+200A, U+2028, U+2029,
    U+202F, U+205F and U+3000, matched here in their UTF-8 encoding.
    Their lead bytes (C2, E1, E2, E3) are never continuation bytes, so a
    decoder always starts a rune on them. *)
Definition spaceWidth (s : string) : nat :=
  match s with
  | EmptyString => 0
  | String c r =>
    if asciiSpace c then 1
    else
      match N_of_ascii c, r with
      | 194%N, String d _ =>
        match N_of_ascii d with
        | 133%N | 160%N => 2
        | _ => 0
        end
      | 225%N, String d (String e _) =>
        match N_of_ascii d, N_of_ascii e with
        | 154%N, 128%N => 3
        | _, _ => 0
        end
      | 226%N, String d (String e _) =>
        match N_of_ascii d with
        | 128%N =>
          let x := N_of_ascii e in
          if ((128 <=? x) && (x <=? 138))%N then 3
          else if (x =? 168)%N || (x =? 169)%N || (x =? 175)%N then 3
          else 0
        | 129%N => if (N_of_ascii e =? 159)%N then 3 else 0
        | _ => 0
        end
      | 227%N, String d (String e _) =>
        match N_of_ascii d, N_of_ascii e with
        | 128%N, 128%N => 3
        | _, _ => 0
        end
      | _, _ => 0
      end
  end.

(** Every byte of [s] paired with whether it belongs to a white-space
    rune.  [skip] counts the bytes of a white-space rune still to
    consume. *)
Fixpoint spaceMask (skip : nat) (s : string) : list (ascii * bool) :=
  match s with
  | EmptyString => []
  | String c r =>
    match skip with
    | S k => (c, true) :: spaceMask k r
    | O =>
      match spaceWidth s with
      | O => (c, false) :: spaceMask 0 r
      | S k => (c, true) :: spaceMask k r
      end
    end
  end.

Definition emit (cur : string) (fields : list string) : list string :=
  if (cur =? "")%string then fields else cur :: fields.

Fixpoint fieldsLoop (cur : string) (m : list (ascii * bool)) : list string :=
  match m with
  | [] => emit cur []
  | (_, true) :: r => emit cur (fieldsLoop "" r)
  | (c, false) :: r => fieldsLoop (cur ++ String c "") r
  end.

(** [strings.Fields(s)]: the maximal runs of bytes of [s] that belong to
    no white-space rune. *)
Definition Fields (s : string) : list string := fieldsLoop "" (spaceMask 0 s).

Fixpoint dropSpace (m : list (ascii * bool)) : list (ascii * bool) :=
  match m with
  | (_, true) :: r => dropSpace r
  | _ => m
  end.

Definition bytesOf (m : list (ascii * bool)) : string :=
  string_of_list_ascii (map fst m).

(** [strings.TrimSpace(s)]: [s] without its leading and trailing
    white-space runes. *)
Definition TrimSpace (s : string) : string :=
  bytesOf (rev (dropSpace (rev (dropSpace (spaceMask 0 s))))).

Definition LF : ascii := "010"%char.
Definition CR : ascii := "013"%char.

(** [dropCR] of package [bufio]: one trailing carriage return is
    removed. *)
Fixpoint dropCR (data : string) : string :=
  match data with
  | EmptyString => ""
  | String c EmptyString => if Ascii.eqb c CR then "" else data
  | String c r => String c (dropCR r)
  end.

Fixpoint scanLoop (cur : string) (data : string) : list string :=
  match data with
  | EmptyString => if (cur =? "")%string then [] else [dropCR cur]
  | String c r =>
    if Ascii.eqb c LF then dropCR cur :: scanLoop "" r
    else scanLoop (cur ++ String c "") r
  end.

(** The tokens a [bufio.Scanner] with split function [bufio.ScanLines]
    yields over [data]: the lines of [data], each without its line feed
    and without one trailing carriage return; a final line needs no
    line feed.  (The scanner's 64 KiB token limit is not modelled.) *)
Definition ScanLines (data : string) : list string := scanLoop "" data.

End strings.

(* ================================================================== *)
(** ** Go standard library: [path/filepath] (Unix), [os], [fmt]        *)
(* ================================================================== *)

(** What the process can observe of its environment: the value of the
    variable [HOME] (empty when unset) and the result of [os.Getwd]. *)
Record Env : Type := mkEnv {
  HOME : string;
  Getwd : option string
}.

Module os.

(** [os.UserHomeDir] on Linux: [$HOME] when it is set and not empty, an
    error otherwise. *)
Definition UserHomeDir (env : Env) : option string :=
  if (HOME env =? "")%string then None else Some (HOME env).

End os.

Module filepath.

Definition Separator : ascii := "/"%char.

(** The elements of [path] between separators, empty ones included. *)
Fixpoint elements (path : string) : list string :=
  match path with
  | EmptyString => [""]
  | String c r =>
    if Ascii.eqb c Separator then "" :: elements r
    else match elements r with
         | [] => [String c ""]
         | e :: rest => String c e :: rest
         end
  end.

(** One element of the path consumed by [Clean]; [out] holds the
    elements kept so far, last one first. *)
Definition cleanStep (rooted : bool) (out : list string) (elem : string)
  : list string :=
  if (elem =? "")%string || (elem =? ".")%string then out
  else if (elem =? "..")%string then
    match out with
    | [] => if rooted then [] else [".."]
    | top :: rest => if (top =? "..")%string then ".." :: out else rest
    end
  else elem :: out.

(** [filepath.Clean(path)]: separators collapsed, ["."] elements
    dropped, inner [".."] elements removed with the element before
    them, [".."] at the root dropped; the empty result is ["."]. *)
Definition Clean (path : string) : string :=
  let rooted := strings.HasPrefix path "/" in
  let out := rev (fold_left (cleanStep rooted) (elements path) []) in
  if rooted then "/" ++ strings.Join out "/"
  else match out with
       | [] => "."
       | _ => strings.Join out "/"
       end.

(** [filepath.Join(elem...)]: leading empty elements are ignored, the
    rest is joined with separators and cleaned; no element, the empty
    string. *)
Fixpoint Join (elem : list string) : string :=
  match elem with
  | [] => ""
  | e :: rest =>
    if (e =? "")%string then Join rest
    else Clean (strings.Join elem "/")
  end.

Definition IsAbs (path : string) : bool := strings.HasPrefix path "/".

(** [filepath.Abs(path)]: [None] is the error of [os.Getwd]. *)
Definition Abs (env : Env) (path : string) : option string :=
  if IsAbs path then Some (Clean path)
  else match Getwd env with
       | None => None
       | Some wd => Some (Join [wd; path])
       end.

End filepath.

Module fmt.

(** The verb [%d] of [fmt.Sprintf] at an [int]. *)
Definition Sprintd (n : Z) : string := DecimalString.NilZero.string_of_int (Z.to_int n).

End fmt.

(* ================================================================== *)
(** ** The unit-file configuration (newService.go of both packages)    *)
(* ================================================================== *)

Definition nl : string := String strings.LF "".

(** [strings.Builder]: the text written so far. *)
Definition WriteString (sb : string) (s : string) : string := sb ++ s.

(** The anonymous struct types of the three sections.  Go identifies
    anonymous struct types by their fields, so both packages share them.
    The field [Type] is spelled [Type_]. *)
Record UnitSection : Type := mkUnit {
  Description : string
}.

Record ServiceSection : Type := mkService {
  Type_ : string;
  User : string;
  Group : string;
  LimitNOFILE : Z;
  Restart : string;
  RestartSec : string;
  StandardOutput : string;
  StandardError : string;
  ExecStart : string
}.

Record InstallSection : Type := mkInstall {
  WantedBy : string
}.

(** [ConfigOptions], declared with the same fields in both packages. *)
Record ConfigOptions : Type := mkOptions {
  optType : string;
  optUser : string;
  optGroup : string;
  optLimitNOFILE : Z;
  optRestart : string;
  optRestartSec : string
}.

(** The options [NewServiceConfig] substitutes for a nil [opts]. *)
Definition defaultOptions : ConfigOptions :=
  {| optType := "simple";
     optUser := "root";
     optGroup := "root";
     optLimitNOFILE := 4096;
     optRestart := "always";
     optRestartSec := "5s" |}.

(** The slice [s[n:]] and the slice [s[:n]], for [n] within [len(s)]
    (Go panics beyond; every use below is guarded). *)
Fixpoint sliceFrom (n : nat) (s : string) : string :=
  match n, s with
  | S k, String _ r => sliceFrom k r
  | _, _ => s
  end.

Fixpoint sliceTo (n : nat) (s : string) : string :=
  match n, s with
  | S k, String c r => String c (sliceTo k r)
  | _, _ => ""
  end.

Module System.

Record SystemdServiceConfig : Type := mkConfig {
  Unit : UnitSection;
  Service : ServiceSection;
  Install : InstallSection
}.

(** [NewServiceConfig]; a nil [opts] is [None].  The error of
    [os.UserHomeDir] leaves [baseDir] as it is; on the error of
    [filepath.Abs] the assignment [baseDir, _ = filepath.Abs(baseDir)]
    stores the empty string. *)
Definition NewServiceConfig (env : Env)
  (serviceName baseDir execCommand : string) (opts : option ConfigOptions)
  : SystemdServiceConfig :=
  let opts := match opts with
              | None => defaultOptions
              | Some o => o
              end in
  let baseDir := if strings.HasPrefix baseDir "~/"
                 then match os.UserHomeDir env with
                      | Some homeDir => filepath.Join [homeDir; sliceFrom 2 baseDir]
                      | None => baseDir
                      end
                 else baseDir in
  let baseDir := match filepath.Abs env baseDir with
                 | Some abs => abs
                 | None => ""
                 end in
  let logPath := filepath.Join [baseDir; "logs"; "service.log"] in
  let execPath := filepath.Join [baseDir; execCommand] in
  {| Unit := {| Description := serviceName ++ " service" |};
     Service := {| Type_ := optType opts;
                   User := optUser opts;
                   Group := optGroup opts;
                   LimitNOFILE := optLimitNOFILE opts;
                   Restart := optRestart opts;
                   RestartSec := optRestartSec opts;
                   StandardOutput := "append:" ++ logPath;
                   StandardError := "append:" ++ logPath;
                   ExecStart := execPath |};
     Install := {| WantedBy := "multi-user.target" |} |}.

Definition ToString (c : SystemdServiceConfig) : string :=
  let sb := "" in
  let sb := WriteString sb ("[Unit]" ++ nl) in
  let sb := WriteString sb ("Description=" ++ Description (Unit c) ++ nl ++ nl) in
  let sb := WriteString sb ("[Service]" ++ nl) in
  let sb := WriteString sb ("Type=" ++ Type_ (Service c) ++ nl) in
  let sb := WriteString sb ("User=" ++ User (Service c) ++ nl) in
  let sb := WriteString sb ("Group=" ++ Group (Service c) ++ nl) in
  let sb := WriteString sb ("LimitNOFILE=" ++ fmt.Sprintd (LimitNOFILE (Service c)) ++ nl) in
  let sb := WriteString sb ("Restart=" ++ Restart (Service c) ++ nl) in
  let sb := WriteString sb ("RestartSec=" ++ RestartSec (Service c) ++ nl) in
  let sb := WriteString sb ("StandardOutput=" ++ StandardOutput (Service c) ++ nl) in
  let sb := WriteString sb ("StandardError=" ++ StandardError (Service c) ++ nl) in
  let sb := WriteString sb ("ExecStart=" ++ ExecStart (Service c) ++ nl ++ nl) in
  let sb := WriteString sb ("[Install]" ++ nl) in
  let sb := WriteString sb ("WantedBy=" ++ WantedBy (Install c) ++ nl) in
  sb.

End System.

Module Systemd.

Record SystemdServiceConfig : Type := mkConfig {
  Unit : UnitSection;
  SystemdService : ServiceSection;
  Install : InstallSection;
  Path : string
}.

(** [NewSystemdServiceConfig]; a nil [opts] is [None]. *)
Definition NewSystemdServiceConfig (env : Env)
  (serviceName baseDir execCommand : string) (opts : option ConfigOptions)
  : SystemdServiceConfig :=
  let opts := match opts with
              | None => defaultOptions
              | Some o => o
              end in
  let baseDir := if strings.HasPrefix baseDir "~/"
                 then match os.UserHomeDir env with
                      | Some homeDir => filepath.Join [homeDir; sliceFrom 2 baseDir]
                      | None => baseDir
                      end
                 else baseDir in
  let baseDir := match filepath.Abs env baseDir with
                 | Some abs => abs
                 | None => ""
                 end in
  let logPath := filepath.Join [baseDir; "logs"; "service.log"] in
  let execPath := filepath.Join [baseDir; execCommand] in
  let savePath := filepath.Join ["/lib/systemd/system"; serviceName ++ ".service"] in
  {| Unit := {| Description := serviceName ++ " service" |};
     SystemdService := {| Type_ := optType opts;
                          User := optUser opts;
                          Group := optGroup opts;
                          LimitNOFILE := optLimitNOFILE opts;
                          Restart := optRestart opts;
                          RestartSec := optRestartSec opts;
                          StandardOutput := "append:" ++ logPath;
                          StandardError := "append:" ++ logPath;
                          ExecStart := execPath |};
     Install := {| WantedBy := "multi-user.target" |};
     Path := savePath |}.

(** [ToString] returns [(string, error)]; the error is always nil and
    is [None] here. *)
Definition ToString (c : SystemdServiceConfig) : string * option string :=
  let sb := "" in
  let sb := WriteString sb ("[Unit]" ++ nl) in
  let sb := WriteString sb ("Description=" ++ Description (Unit c) ++ nl ++ nl) in
  let sb := WriteString sb ("[SystemdService]" ++ nl) in
  let sb := WriteString sb ("Type=" ++ Type_ (SystemdService c) ++ nl) in
  let sb := WriteString sb ("User=" ++ User (SystemdService c) ++ nl) in
  let sb := WriteString sb ("Group=" ++ Group (SystemdService c) ++ nl) in
  let sb := WriteString sb ("LimitNOFILE=" ++ fmt.Sprintd (LimitNOFILE (SystemdService c)) ++ nl) in
  let sb := WriteString sb ("Restart=" ++ Restart (SystemdService c) ++ nl) in
  let sb := WriteString sb ("RestartSec=" ++ RestartSec (SystemdService c) ++ nl) in
  let sb := WriteString sb ("StandardOutput=" ++ StandardOutput (SystemdService c) ++ nl) in
  let sb := WriteString sb ("StandardError=" ++ StandardError (SystemdService c) ++ nl) in
  let sb := WriteString sb ("ExecStart=" ++ ExecStart (SystemdService c) ++ nl ++ nl) in
  let sb := WriteString sb ("[Install]" ++ nl) in
  let sb := WriteString sb ("WantedBy=" ++ WantedBy (Install c) ++ nl) in
  (sb, None).

End Systemd.

(* ================================================================== *)
(** ** The service listing (services.go; the same text in both packages) *)
(* ================================================================== *)

(** What [cmd.CombinedOutput()] returned. *)
Inductive ExecResult : Type :=
| ExecOutput (output : string)
| ExecError.

(** A call either returns or ends the process in [log.Fatalf]. *)
Inductive Outcome (A : Type) : Type :=
| Returned (a : A)
| Fatal.
Arguments Returned {A} a.
Arguments Fatal {A}.

Module Services.

Record Service : Type := mkServiceRecord {
  Name : string;
  Unit : string;
  ActiveState : string;
  SubState : string;
  LoadState : string;
  Path : string
}.

Definition setSubState (s : Service) (v : string) : Service :=
  {| Name := Name s; Unit := Unit s; ActiveState := ActiveState s;
     SubState := v; LoadState := LoadState s; Path := Path s |}.

Definition setLoadState (s : Service) (v : string) : Service :=
  {| Name := Name s; Unit := Unit s; ActiveState := ActiveState s;
     SubState := SubState s; LoadState := v; Path := Path s |}.

Definition setPath (s : Service) (v : string) : Service :=
  {| Name := Name s; Unit := Unit s; ActiveState := ActiveState s;
     SubState := SubState s; LoadState := LoadState s; Path := v |}.

(** [fields[i]]; every use is guarded by a test on [len(fields)]. *)
Definition index (fields : list string) (i : nat) : string := nth i fields "".

(** One turn of the loop [for scanner.Scan()]: [services] before the
    turn, the scanned [line], [services] after the turn. *)
Definition scanStep (partialName : string) (services : list Service)
  (line : string) : list Service :=
  if strings.HasPrefix line "UNIT" then services
  else
    let fields := strings.Fields line in
    if (length fields <? 3)%nat then services
    else if negb (partialName =? "")%string
            && negb (strings.Contains (index fields 0) partialName)
    then services
    else
      let service := {| Name := index fields 0;
                        Unit := index fields 1;
                        ActiveState := index fields 2;
                        SubState := "";
                        LoadState := "";
                        Path := "" |} in
      let service := if (3 <? length fields)%nat
                     then setSubState service (index fields 3)
                     else service in
      let service := if (4 <? length fields)%nat
                     then setLoadState service (index fields 4)
                     else service in
      let service := setPath service
                       ("/etc/systemd/system/" ++ Name service ++ ".service") in
      services ++ [service].

(** The loop over the lines of the command's output. *)
Definition scanAll (partialName : string) (lines : list string) : list Service :=
  fold_left (scanStep partialName) lines [].

Definition GetSystemDServices (cmd : ExecResult) (partialName : string)
  : Outcome (list Service) :=
  match cmd with
  | ExecError => Fatal
  | ExecOutput output => Returned (scanAll partialName (strings.ScanLines output))
  end.

End Services.

(* ================================================================== *)
(** ** The HTTP handlers (main.go, the variant over package systemd)   *)
(* ================================================================== *)

Module Main.

Definition StatusOK : nat := 200.
Definition StatusBadRequest : nat := 400.

(** The form of a request: its fields in order. *)
Record Request : Type := mkRequest {
  form : list (string * string)
}.

(** [c.FormValue(key)]: the first value of the field, the empty string
    when the field is absent. *)
Fixpoint lookup (fields : list (string * string)) (key : string) : string :=
  match fields with
  | [] => ""
  | (k, v) :: rest => if (k =? key)%string then v else lookup rest key
  end.

Definition FormValue (c : Request) (key : string) : string := lookup (form c) key.

(** What [c.String(code, s)] sends. *)
Record Response : Type := mkResponse {
  status : nat;
  body : string
}.

(** The configuration both [GET /new] and [POST /service/new] build. *)
Definition exampleConfig (env : Env) : Systemd.SystemdServiceConfig :=
  Systemd.NewSystemdServiceConfig env
    "pocketbase"
    "~/pb"
    "pocketbase serve yourdomain.com"
    (Some {| optType := ""; optUser := "pocketbase"; optGroup := "pocketbase";
             optLimitNOFILE := 0; optRestart := ""; optRestartSec := "" |}).

(** The handler of [GET /new].  It passes [config.ToString()] where a
    string is expected: the text of the pair is sent. *)
Definition getNew (env : Env) (c : Request) : Response :=
  let config := exampleConfig env in
  {| status := StatusOK; body := fst (Systemd.ToString config) |}.

(** The handler of [POST /service/new]. *)
Definition postServiceNew (env : Env) (c : Request) : Response :=
  let name := FormValue c "name" in
  if (name =? "")%string then
    {| status := StatusBadRequest; body := "name is required" |}
  else
    let path := FormValue c "path" in
    if (path =? "")%string then
      {| status := StatusBadRequest; body := "path is required" |}
    else
      let path := strings.TrimSpace path in
      if (2 <=? String.length path)%nat && negb (sliceTo 2 path =? "~/")%string then
        {| status := StatusBadRequest;
           body := "path must be absolute, try ~/path/to/service" |}
      else
        let config := exampleConfig env in
        {| status := StatusOK; body := fst (Systemd.ToString config) |}.

(** The handler of [GET /services]; the JSON encoding of the records is
    left to the caller. *)
Definition getServices (cmd : ExecResult) (partialName : string)
  : Outcome (nat * list Services.Service) :=
  match Services.GetSystemDServices cmd partialName with
  | Fatal => Fatal
  | Returned services => Returned (StatusOK, services)
  end.

End Main.

(* ================================================================== *)
(** ** The HTTP handlers (main.go, the variant over package system)    *)
(* ================================================================== *)

Module MainSystem.

(** The handler of [GET /]. *)
Definition getRoot (c : Main.Request) : Main.Response :=
  {| Main.status := Main.StatusOK; Main.body := "Hello, World!" |}.

(** The handler of [GET /new] over [system.NewServiceConfig]. *)
Definition getNew (env : Env) (c : Main.Request) : Main.Response :=
  let config := System.NewServiceConfig env
                  "pocketbase"
                  "~/pb"
                  "pocketbase serve yourdomain.com"
                  (Some {| optType := ""; optUser := "pocketbase"; optGroup := "pocketbase";
                           optLimitNOFILE := 0; optRestart := ""; optRestartSec := "" |}) in
  {| Main.status := Main.StatusOK; Main.body := System.ToString config |}.

End MainSystem.

(* ================================================================== *)
(** ** The listing as the specification words it                       *)
(* ================================================================== *)

Module ListerSpec.

Import Services.

(** The record of a line split into [fields] (at least three). *)
Definition recordOf (fields : list string) : Service :=
  {| Name := nth 0 fields "";
     Unit := nth 1 fields "";
     ActiveState := nth 2 fields "";
     SubState := nth 3 fields "";
     LoadState := nth 4 fields "";
     Path := "/etc/systemd/system/" ++ nth 0 fields "" ++ ".service" |}.

(** A line is skipped when it begins with the header token or has fewer
    than three fields; every other line is parsed into one record. *)
Definition skipped (line : string) : bool :=
  strings.HasPrefix line "UNIT" || (length (strings.Fields line) <? 3)%nat.

Definition parseLine (line : string) : list Service :=
  if skipped line then [] else [recordOf (strings.Fields line)].

(** All parsed records of an output, in the order of its lines. *)
Definition parsed (output : string) : list Service :=
  flat_map parseLine (strings.ScanLines output).

(** [name] contains [substr] as a substring. *)
Definition Substring (substr name : string) : Prop :=
  exists before after, name = before ++ substr ++ after.

(** Whether a name passes the filter: every name passes the empty
    filter. *)
Definition keeps (partialName name : string) : bool :=
  (partialName =? "")%string || strings.Contains name partialName.

End ListerSpec.

(* ================================================================== *)
(** ** Paths in normal form                                            *)
(* ================================================================== *)

Module PathSpec.

(** Whether the byte [c] occurs in [s]. *)
Fixpoint hasByte (c : ascii) (s : string) : bool :=
  match s with
  | EmptyString => false
  | String d r => Ascii.eqb d c || hasByte c r
  end.

(** A plain path element: not empty, not ["."], not [".."], without
    separator. *)
Definition plainElem (e : string) : bool :=
  negb (e =? "")%string && negb (e =? ".")%string && negb (e =? "..")%string
  && negb (hasByte filepath.Separator e).

(** An absolute path in normal form, the root excluded: [Clean] leaves
    it as it is. *)
Definition cleanAbs (path : string) : Prop :=
  filepath.IsAbs path = true /\ filepath.Clean path = path /\ path <> "/".

End PathSpec.

(* ================================================================== *)
(** ** The base directory of a configuration                           *)
(* ================================================================== *)

(** The first steps of both constructors: the expansion of the home
    directory, then [baseDir, _ = filepath.Abs(baseDir)]. *)
Definition expandHome (env : Env) (baseDir : string) : string :=
  if strings.HasPrefix baseDir "~/" then
    match os.UserHomeDir env with
    | Some homeDir => filepath.Join [homeDir; sliceFrom 2 baseDir]
    | None => baseDir
    end
  else baseDir.

Definition absOrEmpty (env : Env) (baseDir : string) : string :=
  match filepath.Abs env baseDir with
  | Some abs => abs
  | None => ""
  end.

(* ================================================================== *)
(** ** The structure of a unit file                                    *)
(* ================================================================== *)

Module UnitFile.

(** The lines of a text, each ended by a line feed (a last line may
    lack it). *)
Fixpoint textLines (text : string) : list string :=
  match text with
  | EmptyString => []
  | String c r =>
    if Ascii.eqb c strings.LF then "" :: textLines r
    else match textLines r with
         | [] => [String c ""]
         | l :: ls => String c l :: ls
         end
  end.

(** What a line of a unit file is: blank, a section header [[name]],
    an entry [key=value], or something else. *)
Inductive LineKind : Type :=
| Blank
| Header (name : string)
| Entry (key : string)
| Other.

(** [s] without its last byte, when that byte is [c]. *)
Fixpoint stripLast (c : ascii) (s : string) : option string :=
  match s with
  | EmptyString => None
  | String d EmptyString => if Ascii.eqb d c then Some "" else None
  | String d r => option_map (String d) (stripLast c r)
  end.

(** The text before the first [=] of a line. *)
Fixpoint keyOf (line : string) : option string :=
  match line with
  | EmptyString => None
  | String c r =>
    if Ascii.eqb c "="%char then Some ""
    else option_map (String c) (keyOf r)
  end.

Definition headerOf (line : string) : option string :=
  match line with
  | String c r => if Ascii.eqb c "["%char then stripLast "]"%char r else None
  | EmptyString => None
  end.

Definition classify (line : string) : LineKind :=
  if (line =? "")%string then Blank
  else match headerOf line with
       | Some name => Header name
       | None => match keyOf line with
                 | Some key => Entry key
                 | None => Other
                 end
       end.

(** The kinds of the lines of a text, in order. *)
Definition layout (text : string) : list LineKind := map classify (textLines text).

(** Three sections in the order Unit, service section, Install; every
    expected key once in its section; one blank line between
    consecutive sections.  [serviceHeader] is the name in the header
    of the service section. *)
Definition expectedLayout (serviceHeader : string) : list LineKind :=
  [ Header "Unit"; Entry "Description";
    Blank;
    Header serviceHeader;
    Entry "Type"; Entry "User"; Entry "Group"; Entry "LimitNOFILE";
    Entry "Restart"; Entry "RestartSec"; Entry "StandardOutput";
    Entry "StandardError"; Entry "ExecStart";
    Blank;
    Header "Install"; Entry "WantedBy" ].

(** How many lines are entries of [key]. *)
Definition keyCount (key : string) (l : list LineKind) : nat :=
  length (filter (fun k => match k with
                           | Entry key' => (key' =? key)%string
                           | _ => false
                           end) l).

(** The text of a list of lines. *)
Fixpoint unlines (ls : list string) : string :=
  match ls with
  | [] => ""
  | l :: rest => l ++ nl ++ unlines rest
  end.

(** The lines [ToString] writes, [serviceHeader] being the name in
    the header of the service section. *)
Definition configLines (serviceHeader : string) (u : UnitSection)
  (s : ServiceSection) (i : InstallSection) : list string :=
  [ "[Unit]";
    "Description=" ++ Description u;
    "";
    "[" ++ serviceHeader ++ "]";
    "Type=" ++ Type_ s;
    "User=" ++ User s;
    "Group=" ++ Group s;
    "LimitNOFILE=" ++ fmt.Sprintd (LimitNOFILE s);
    "Restart=" ++ Restart s;
    "RestartSec=" ++ RestartSec s;
    "StandardOutput=" ++ StandardOutput s;
    "StandardError=" ++ StandardError s;
    "ExecStart=" ++ ExecStart s;
    "";
    "[Install]";
    "WantedBy=" ++ WantedBy i ].

(** No string field of the sections holds a line feed. *)
Definition oneLine (s : string) : bool := negb (PathSpec.hasByte strings.LF s).

Definition singleLineFields (u : UnitSection) (s : ServiceSection)
  (i : InstallSection) : bool :=
  oneLine (Description u)
  && oneLine (Type_ s) && oneLine (User s) && oneLine (Group s)
  && oneLine (Restart s) && oneLine (RestartSec s)
  && oneLine (StandardOutput s) && oneLine (StandardError s)
  && oneLine (ExecStart s)
  && oneLine (WantedBy i).

End UnitFile.

(* ================================================================== *)
(** ** Sample inputs                                                   *)
(* ================================================================== *)

(** An output of the listing command: a header line, a line of five
    fields, a line of two fields and a line of three fields. *)
Definition sampleOutput : string :=
  "UNIT LOAD ACTIVE SUB DESCRIPTION" ++ nl ++
  "nginx.service loaded active running web" ++ nl ++
  "short line" ++ nl ++
  "cron.service loaded active" ++ nl.

(** An environment with a home directory and a working directory. *)
Definition sampleEnv : Env := {| HOME := "/root"; Getwd := Some "/srv" |}.

(** A form carrying [name] and [path]. *)
Definition formOf (name path : string) : Main.Request :=
  {| Main.form := [("name", name); ("path", path)] |}.

(** The overrides of the example in the documentation of
    [NewServiceConfig] and of the handlers: only [User] and [Group]. *)
Definition exampleOptions : ConfigOptions :=
  {| optType := ""; optUser := "pocketbase"; optGroup := "pocketbase";
     optLimitNOFILE := 0; optRestart := ""; optRestartSec := "" |}.

(** A service name that holds a line feed followed by a second
    [Description] entry. *)
Definition twoLineName : string := "x" ++ nl ++ "Description=y".

(* ================================================================== *)
(** ** Shapes of records and of inputs                                 *)
(* ================================================================== *)

(** Whether a string holds one of the six ASCII white-space bytes. *)
Fixpoint hasAsciiSpace (s : string) : bool :=
  match s with
  | EmptyString => false
  | String c r => strings.asciiSpace c || hasAsciiSpace r
  end.

(** What every record of a listing satisfies: the three leading fields
    are present, the name holds no ASCII white space, and the path is
    derived from the name. *)
Definition wellFormedRecord (s : Services.Service) : Prop :=
  Services.Name s <> "" /\ Services.Unit s <> "" /\ Services.ActiveState s <> ""
  /\ hasAsciiSpace (Services.Name s) = false
  /\ Services.Path s = "/etc/systemd/system/" ++ Services.Name s ++ ".service".

(** Overrides whose string fields hold no line feed; absent overrides
    qualify. *)
Definition singleLineOptions (opts : option ConfigOptions) : bool :=
  match opts with
  | None => true
  | Some o => UnitFile.oneLine (optType o) && UnitFile.oneLine (optUser o)
              && UnitFile.oneLine (optGroup o) && UnitFile.oneLine (optRestart o)
              && UnitFile.oneLine (optRestartSec o)
  end.

(** An environment whose home directory and working directory hold no
    line feed. *)
Definition singleLineEnv (env : Env) : bool :=
  UnitFile.oneLine (HOME env)
  && match Getwd env with
     | None => true
     | Some wd => UnitFile.oneLine wd
     end.

(** A string without line feed, as a proposition. *)
Definition lineFree (s : string) : Prop := PathSpec.hasByte strings.LF s = false.

(** When the handler of [POST /service/new] rejects a form: no name, no
    path, or a trimmed path of two bytes or more that does not begin
    with [~/]. *)
Definition rejected (c : Main.Request) : Prop :=
  Main.FormValue c "name" = ""
  \/ Main.FormValue c "path" = ""
  \/ (2 <= String.length (strings.TrimSpace (Main.FormValue c "path"))
      /\ strings.HasPrefix (strings.TrimSpace (Main.FormValue c "path")) "~/" = false).

(* ================================================================== *)
(** ** The library model on sample inputs                             *)
(* ================================================================== *)

Example HasPrefix_ex : strings.HasPrefix "~/pb" "~/" = true.
Proof. reflexivity. Qed.

Example Fields_ex :
  strings.Fields "  nginx.service loaded  active running A web server"
  = ["nginx.service"; "loaded"; "active"; "running"; "A"; "web"; "server"].
Proof. reflexivity. Qed.

Example TrimSpace_ex : strings.TrimSpace "  ~/a b  " = "~/a b".
Proof. reflexivity. Qed.

Example ScanLines_ex :
  strings.ScanLines (String "a" (String strings.CR (String strings.LF (String strings.LF "b"))))
  = ["a"; ""; "b"].
Proof. reflexivity. Qed.

Example Clean_ex1 : filepath.Clean "/root//pb/./x/../y/" = "/root/pb/y".
Proof. reflexivity. Qed.

Example Clean_ex2 : filepath.Clean "a/../../b" = "../b".
Proof. reflexivity. Qed.

Example Clean_ex3 : filepath.Clean "/.." = "/" /\ filepath.Clean "" = ".".
Proof. split; reflexivity. Qed.

Example Join_ex : filepath.Join ["/root/pb"; "logs"; "service.log"] = "/root/pb/logs/service.log".
Proof. reflexivity. Qed.

Example Sprintd_ex :
  fmt.Sprintd 4096 = "4096" /\ fmt.Sprintd 0 = "0" /\ fmt.Sprintd (-12) = "-12".
Proof. repeat split; reflexivity. Qed.

(* ================================================================== *)
(** ** Strings: prefixes and substrings                                *)
(* ================================================================== *)

Lemma append_assoc (a b c : string) : (a ++ b) ++ c = a ++ (b ++ c).
Proof. induction a as [|x a IH]; cbn; [reflexivity | now rewrite IH]. Qed.

Lemma length_append (a b : string) :
  String.length (a ++ b) = String.length a + String.length b.
Proof. induction a as [|x a IH]; cbn; [reflexivity | now rewrite IH]. Qed.

Lemma HasPrefix_iff (s p : string) :
  strings.HasPrefix s p = true <-> exists r, s = p ++ r.
Proof.
  revert s. induction p as [|c p IH]; intros s.
  - destruct s; cbn; (split; [intros _; eexists; reflexivity | reflexivity]).
  - destruct s as [|d s]; cbn.
    + split; [discriminate | intros [r Hr]; discriminate].
    + rewrite andb_true_iff, IH, Ascii.eqb_eq. split.
      * intros [-> [r ->]]. now exists r.
      * intros [r Hr]. inversion Hr. split; [reflexivity | now exists r].
Qed.

Lemma Contains_iff (s substr : string) :
  strings.Contains s substr = true <-> ListerSpec.Substring substr s.
Proof.
  unfold ListerSpec.Substring.
  induction s as [|c s IH].
  - cbn [strings.Contains]. rewrite orb_false_r, HasPrefix_iff. split.
    + intros [r Hr]. now exists "", r.
    + intros [[|b before] [after H]]; [now exists after|discriminate].
  - cbn [strings.Contains]. rewrite orb_true_iff, HasPrefix_iff, IH. split.
    + intros [[r Hr] | [before [after H]]].
      * now exists "", r.
      * exists (String c before), after. now rewrite H.
    + intros [[|b before] [after H]].
      * left. now exists after.
      * right. exists before, after. now inversion H.
Qed.

Lemma Contains_empty (s : string) : strings.Contains s "" = true.
Proof. destruct s; reflexivity. Qed.

(* ================================================================== *)
(** ** The listing loop                                                *)
(* ================================================================== *)

Section ScanLoop.

Import Services.
Variable partialName : string.

Lemma nth_of_three (f0 f1 f2 : string) (rest : list string) :
  let fields := f0 :: f1 :: f2 :: rest in
  (length fields <? 3)%nat = false /\
  (if (3 <? length fields)%nat then nth 3 fields "" else "") = nth 0 rest "" /\
  (if (4 <? length fields)%nat then nth 4 fields "" else "") = nth 1 rest "".
Proof.
  cbn. repeat split.
  - destruct rest; reflexivity.
  - destruct rest as [|a [|b rest]]; reflexivity.
Qed.

(** The record the loop body builds is the specification's record. *)
Lemma scanStep_record (services : list Service) (line : string) :
  scanStep partialName services line =
  (services ++ filter (fun s => ListerSpec.keeps partialName (Name s)) (ListerSpec.parseLine line))%list.
Proof.
  unfold scanStep, ListerSpec.parseLine, ListerSpec.skipped.
  destruct (strings.HasPrefix line "UNIT"); cbn [orb].
  - now rewrite app_nil_r.
  - destruct (strings.Fields line) as [|f0 [|f1 [|f2 rest]]];
      try (cbn; now rewrite app_nil_r).
    destruct (nth_of_three f0 f1 f2 rest) as (H3 & Hsub & Hload).
    cbv zeta in H3, Hsub, Hload. rewrite H3.
    cbn [filter ListerSpec.recordOf Name index nth]. unfold ListerSpec.keeps.
    destruct (partialName =? "")%string; cbn [negb andb orb].
    + f_equal. f_equal.
      destruct rest as [|a [|b rest]]; reflexivity.
    + destruct (strings.Contains f0 partialName); cbn [negb].
      * f_equal. f_equal. destruct rest as [|a [|b rest]]; reflexivity.
      * now rewrite app_nil_r.
Qed.

Lemma fold_scanStep (lines : list string) (services : list Service) :
  fold_left (scanStep partialName) lines services =
  (services ++ filter (fun s => ListerSpec.keeps partialName (Name s)) (flat_map ListerSpec.parseLine lines))%list.
Proof.
  revert services. induction lines as [|line lines IH]; intros services.
  - cbn. now rewrite app_nil_r.
  - cbn [fold_left flat_map]. rewrite IH, scanStep_record, filter_app.
    now rewrite app_assoc.
Qed.

Lemma scanAll_parsed (lines : list string) :
  scanAll partialName lines =
  filter (fun s => ListerSpec.keeps partialName (Name s)) (flat_map ListerSpec.parseLine lines).
Proof. unfold scanAll. now rewrite fold_scanStep. Qed.

Lemma scanAll_app (before after : list string) :
  scanAll partialName (before ++ after)%list =
  (scanAll partialName before ++ scanAll partialName after)%list.
Proof. now rewrite !scanAll_parsed, flat_map_app, filter_app. Qed.

Lemma scanAll_cons (line : string) (after : list string) :
  scanAll partialName (line :: after) =
  (filter (fun s => ListerSpec.keeps partialName (Name s)) (ListerSpec.parseLine line)
   ++ scanAll partialName after)%list.
Proof. rewrite !scanAll_parsed. cbn [flat_map]. now rewrite filter_app. Qed.

End ScanLoop.

Lemma filter_all {A : Type} (f : A -> bool) (l : list A) :
  (forall x, f x = true) -> filter f l = l.
Proof.
  intros Hf. induction l as [|x l IH]; cbn; [reflexivity|].
  now rewrite Hf, IH.
Qed.

(* ================================================================== *)
(** ** [filepath.Clean] and [filepath.Join] on plain elements          *)
(* ================================================================== *)

Section Paths.

Import PathSpec.

Lemma hasByte_append (c : ascii) (a b : string) :
  hasByte c (a ++ b) = hasByte c a || hasByte c b.
Proof.
  induction a as [|x a IH]; cbn; [reflexivity|].
  now rewrite IH, orb_assoc.
Qed.

Lemma eqb_length (s t : string) :
  String.length s <> String.length t -> (s =? t)%string = false.
Proof.
  intros Hlen. apply String.eqb_neq. intros ->. now apply Hlen.
Qed.

(** A name without separator followed by [.service] is a plain
    element. *)
Lemma plainElem_unit_name (name : string) :
  hasByte filepath.Separator name = false ->
  plainElem (name ++ ".service") = true.
Proof.
  intros Hname. unfold plainElem.
  rewrite hasByte_append, Hname.
  rewrite !eqb_length by (rewrite length_append; cbn; lia).
  reflexivity.
Qed.

Lemma plainElem_inv (e : string) :
  plainElem e = true ->
  (e =? "")%string = false /\ (e =? ".")%string = false /\
  (e =? "..")%string = false /\ hasByte filepath.Separator e = false.
Proof.
  unfold plainElem. rewrite !andb_true_iff, !negb_true_iff. tauto.
Qed.

Lemma elements_sep (e r : string) :
  hasByte filepath.Separator e = false ->
  filepath.elements (e ++ String filepath.Separator r) = e :: filepath.elements r.
Proof.
  induction e as [|c e IH]; intros Hsep.
  - reflexivity.
  - cbn [hasByte] in Hsep. apply orb_false_iff in Hsep as [Hc He].
    cbn [append filepath.elements]. rewrite Hc, (IH He). reflexivity.
Qed.

Lemma elements_single (e : string) :
  hasByte filepath.Separator e = false -> filepath.elements e = [e].
Proof.
  induction e as [|c e IH]; intros Hsep.
  - reflexivity.
  - cbn [hasByte] in Hsep. apply orb_false_iff in Hsep as [Hc He].
    cbn [filepath.elements]. rewrite Hc, (IH He). reflexivity.
Qed.

Lemma elements_Join (e : string) (es : list string) :
  Forall (fun x => hasByte filepath.Separator x = false) (e :: es) ->
  filepath.elements (strings.Join (e :: es) "/") = e :: es.
Proof.
  revert e. induction es as [|e2 es IH]; intros e Hall.
  - apply elements_single. now inversion Hall.
  - inversion Hall as [|? ? He Hrest]; subst.
    change (strings.Join (e :: e2 :: es) "/")
      with (e ++ String filepath.Separator (strings.Join (e2 :: es) "/")).
    rewrite (elements_sep _ _ He), (IH _ Hrest). reflexivity.
Qed.

Lemma elements_no_separator (path : string) :
  Forall (fun x => hasByte filepath.Separator x = false) (filepath.elements path).
Proof.
  induction path as [|c r IH].
  - repeat constructor.
  - cbn [filepath.elements].
    destruct (Ascii.eqb c filepath.Separator) eqn:Hc.
    + constructor; [reflexivity | exact IH].
    + destruct (filepath.elements r) as [|e rest].
      * repeat constructor. cbn. now rewrite Hc.
      * inversion IH; subst. constructor; [|assumption].
        cbn. now rewrite Hc.
Qed.

Lemma cleanStep_plain (rooted : bool) (out : list string) (e : string) :
  plainElem e = true -> filepath.cleanStep rooted out e = e :: out.
Proof.
  intros He. apply plainElem_inv in He as (H0 & H1 & H2 & _).
  unfold filepath.cleanStep. now rewrite H0, H1, H2.
Qed.

Lemma fold_cleanStep_plain (rooted : bool) (es out : list string) :
  Forall (fun e => plainElem e = true) es ->
  fold_left (filepath.cleanStep rooted) es out = (rev es ++ out)%list.
Proof.
  revert out. induction es as [|e es IH]; intros out Hall.
  - reflexivity.
  - inversion Hall; subst. cbn [fold_left rev].
    rewrite cleanStep_plain, IH by assumption.
    now rewrite <- app_assoc.
Qed.

Lemma plain_no_separator (es : list string) :
  Forall (fun e => plainElem e = true) es ->
  Forall (fun x => hasByte filepath.Separator x = false) es.
Proof.
  apply Forall_impl. intros e He. now apply plainElem_inv in He.
Qed.

(** An absolute path made of plain elements is left as it is. *)
Lemma Clean_plain (es : list string) :
  Forall (fun e => plainElem e = true) es ->
  filepath.Clean ("/" ++ strings.Join es "/") = "/" ++ strings.Join es "/".
Proof.
  intros Hall. unfold filepath.Clean.
  change (strings.HasPrefix ("/" ++ strings.Join es "/") "/") with true.
  cbv iota. f_equal.
  change ("/" ++ strings.Join es "/")
    with (String filepath.Separator (strings.Join es "/")).
  destruct es as [|e es]; [reflexivity|].
  cbn [filepath.elements]. change (Ascii.eqb filepath.Separator filepath.Separator) with true.
  cbv iota. rewrite elements_Join by now apply plain_no_separator.
  change (fold_left (filepath.cleanStep true) ("" :: e :: es) [])
    with (fold_left (filepath.cleanStep true) (e :: es) []).
  rewrite fold_cleanStep_plain by assumption.
  now rewrite app_nil_r, rev_involutive.
Qed.

Lemma cleanStep_rooted_keeps_plain (out : list string) (e : string) :
  Forall (fun x => plainElem x = true) out ->
  hasByte filepath.Separator e = false ->
  Forall (fun x => plainElem x = true) (filepath.cleanStep true out e).
Proof.
  intros Hout He. unfold filepath.cleanStep.
  destruct (e =? "")%string eqn:H0; [assumption|].
  destruct (e =? ".")%string eqn:H1; [assumption|]. cbn [orb].
  destruct (e =? "..")%string eqn:H2.
  - destruct out as [|top rest]; [constructor|].
    inversion Hout as [|? ? Htop Hrest]; subst.
    apply plainElem_inv in Htop as (_ & _ & Htop & _). now rewrite Htop.
  - constructor; [|assumption].
    unfold plainElem. now rewrite H0, H1, H2, He.
Qed.

Lemma fold_cleanStep_rooted_plain (es out : list string) :
  Forall (fun x => hasByte filepath.Separator x = false) es ->
  Forall (fun x => plainElem x = true) out ->
  Forall (fun x => plainElem x = true) (fold_left (filepath.cleanStep true) es out).
Proof.
  revert out. induction es as [|e es IH]; intros out Hes Hout.
  - exact Hout.
  - inversion Hes; subst. cbn [fold_left]. apply IH; [assumption|].
    now apply cleanStep_rooted_keeps_plain.
Qed.

(** [Clean] of an absolute path is the root followed by plain
    elements. *)
Lemma Clean_rooted_shape (path : string) :
  filepath.IsAbs path = true ->
  exists es, Forall (fun e => plainElem e = true) es
             /\ filepath.Clean path = "/" ++ strings.Join es "/".
Proof.
  intros Habs. unfold filepath.IsAbs in Habs. unfold filepath.Clean.
  rewrite Habs.
  exists (rev (fold_left (filepath.cleanStep true) (filepath.elements path) [])).
  split; [|reflexivity].
  apply Forall_rev, fold_cleanStep_rooted_plain; [|constructor].
  apply elements_no_separator.
Qed.

Lemma cleanAbs_shape (path : string) :
  cleanAbs path ->
  exists e es, Forall (fun x => plainElem x = true) (e :: es)
               /\ path = "/" ++ strings.Join (e :: es) "/".
Proof.
  intros (Habs & Hclean & Hroot).
  destruct (Clean_rooted_shape path Habs) as ([|e es] & Hall & Hshape).
  - rewrite Hclean in Hshape. contradiction.
  - exists e, es. split; [assumption | congruence].
Qed.

Lemma Join_snoc (e : string) (es fs : list string) :
  fs <> [] ->
  strings.Join ((e :: es) ++ fs) "/"
  = strings.Join (e :: es) "/" ++ "/" ++ strings.Join fs "/".
Proof.
  intros Hfs. revert e. induction es as [|e2 es IH]; intros e.
  - destruct fs; [contradiction | reflexivity].
  - change (strings.Join ((e :: e2 :: es) ++ fs) "/")
      with (e ++ "/" ++ strings.Join ((e2 :: es) ++ fs) "/").
    rewrite IH.
    change (strings.Join (e :: e2 :: es) "/")
      with (e ++ "/" ++ strings.Join (e2 :: es) "/").
    rewrite !append_assoc. reflexivity.
Qed.

(** Joining plain elements under an absolute path of plain elements
    appends them, separated. *)
Lemma Join_under (e f : string) (es fs : list string) :
  Forall (fun x => plainElem x = true) (e :: es) ->
  Forall (fun x => plainElem x = true) (f :: fs) ->
  filepath.Join (("/" ++ strings.Join (e :: es) "/") :: f :: fs)
  = "/" ++ strings.Join (e :: es) "/" ++ "/" ++ strings.Join (f :: fs) "/".
Proof.
  intros Hes Hfs. cbn [filepath.Join String.eqb append].
  change (strings.Join (String "/" (strings.Join (e :: es) "/") :: f :: fs) "/")
    with ("/" ++ (strings.Join (e :: es) "/" ++ "/" ++ strings.Join (f :: fs) "/")).
  rewrite <- Join_snoc by discriminate.
  rewrite Clean_plain by (apply Forall_app; split; assumption).
  rewrite Join_snoc by discriminate. reflexivity.
Qed.

Lemma elements_not_nil (path : string) : filepath.elements path <> [].
Proof.
  destruct path as [|c r]; cbn [filepath.elements]; [discriminate|].
  destruct (Ascii.eqb c filepath.Separator); [discriminate|].
  destruct (filepath.elements r); discriminate.
Qed.

Lemma elements_app (a b : string) :
  filepath.elements (a ++ String filepath.Separator b)
  = (filepath.elements a ++ filepath.elements b)%list.
Proof.
  induction a as [|c a IH].
  - reflexivity.
  - cbn [append filepath.elements]. rewrite IH.
    destruct (Ascii.eqb c filepath.Separator); [reflexivity|].
    pose proof (elements_not_nil a) as Hne.
    destruct (filepath.elements a); [contradiction | reflexivity].
Qed.

Lemma fold_elements_Join (rooted : bool) (es out : list string) :
  Forall (fun e => plainElem e = true) es ->
  fold_left (filepath.cleanStep rooted) (filepath.elements (strings.Join es "/")) out
  = (rev es ++ out)%list.
Proof.
  intros Hall. destruct es as [|e es]; [reflexivity|].
  rewrite elements_Join by now apply plain_no_separator.
  now apply fold_cleanStep_plain.
Qed.

Lemma IsAbs_iff (path : string) :
  filepath.IsAbs path = true <-> exists r, path = "/" ++ r.
Proof. apply HasPrefix_iff. Qed.

Lemma IsAbs_Clean (path : string) :
  filepath.IsAbs path = true -> filepath.IsAbs (filepath.Clean path) = true.
Proof.
  intros Habs. destruct (Clean_rooted_shape path Habs) as (es & _ & ->).
  reflexivity.
Qed.

Lemma IsAbs_append (path suffix : string) :
  filepath.IsAbs path = true -> filepath.IsAbs (path ++ suffix) = true.
Proof.
  rewrite !IsAbs_iff. intros [r ->]. exists (r ++ suffix). reflexivity.
Qed.

(** [Clean] is idempotent on absolute paths. *)
Lemma Clean_idempotent (path : string) :
  filepath.IsAbs path = true ->
  filepath.Clean (filepath.Clean path) = filepath.Clean path.
Proof.
  intros Habs. destruct (Clean_rooted_shape path Habs) as (es & Hall & ->).
  now apply Clean_plain.
Qed.

(** Cleaning an absolute path before a suffix is appended changes
    nothing to the clean form of the whole. *)
Lemma Clean_under_Clean (path suffix : string) :
  filepath.IsAbs path = true ->
  filepath.Clean (filepath.Clean path ++ "/" ++ suffix)
  = filepath.Clean (path ++ "/" ++ suffix).
Proof.
  intros Habs.
  assert (Hplain := fold_cleanStep_rooted_plain (filepath.elements path) []
                      (elements_no_separator path) (Forall_nil _)).
  unfold filepath.Clean at 1 3.
  pose proof (IsAbs_append _ ("/" ++ suffix) (IsAbs_Clean _ Habs)) as Hl.
  pose proof (IsAbs_append _ ("/" ++ suffix) Habs) as Hr.
  unfold filepath.IsAbs in Hl, Hr. rewrite Hl, Hr. f_equal. f_equal. f_equal.
  change ("/" ++ suffix) with (String filepath.Separator suffix).
  rewrite !elements_app, !fold_left_app. f_equal.
  unfold filepath.Clean. unfold filepath.IsAbs in Habs. rewrite Habs.
  change ("/" ++ ?x) with (String filepath.Separator x).
  cbn [filepath.elements]. change (Ascii.eqb filepath.Separator filepath.Separator) with true.
  cbv iota. cbn [fold_left].
  change (filepath.cleanStep true [] "") with (@nil string).
  rewrite fold_elements_Join by now apply Forall_rev.
  now rewrite app_nil_r, rev_involutive.
Qed.

(** [filepath.Join] under a first element that is absolute. *)
Lemma Join_abs (path : string) (rest : list string) :
  filepath.IsAbs path = true ->
  filepath.Join (path :: rest) = filepath.Clean (strings.Join (path :: rest) "/").
Proof.
  intros Habs. apply IsAbs_iff in Habs as [r ->]. reflexivity.
Qed.

End Paths.

(* ================================================================== *)
(** ** [filepath.Clean] never returns the empty string                 *)
(* ================================================================== *)

Lemma cleanStep_keeps_nonempty (rooted : bool) (out : list string) (e : string) :
  Forall (fun x => x <> "") out ->
  Forall (fun x => x <> "") (filepath.cleanStep rooted out e).
Proof.
  intros Hout. unfold filepath.cleanStep.
  destruct (String.eqb_spec e ""); [assumption|].
  destruct (e =? ".")%string; [assumption|]. cbn [orb].
  destruct (e =? "..")%string.
  - destruct out as [|top rest].
    + destruct rooted; repeat constructor. discriminate.
    + destruct (top =? "..")%string.
      * constructor; [discriminate | assumption].
      * now inversion Hout.
  - now constructor.
Qed.

Lemma fold_cleanStep_nonempty (rooted : bool) (es out : list string) :
  Forall (fun x => x <> "") out ->
  Forall (fun x => x <> "") (fold_left (filepath.cleanStep rooted) es out).
Proof.
  revert out. induction es as [|e es IH]; intros out Hout; [exact Hout|].
  cbn [fold_left]. now apply IH, cleanStep_keeps_nonempty.
Qed.

Lemma Join_not_empty (e : string) (es : list string) :
  e <> "" -> strings.Join (e :: es) "/" <> "".
Proof.
  intros He. destruct es; cbn [strings.Join]; [assumption|].
  destruct e; [contradiction | discriminate].
Qed.

Lemma Clean_not_empty (path : string) : filepath.Clean path <> "".
Proof.
  unfold filepath.Clean.
  destruct (strings.HasPrefix path "/"); [discriminate|].
  pose proof (fold_cleanStep_nonempty false (filepath.elements path) [] (Forall_nil _)) as Hall.
  apply Forall_rev in Hall.
  destruct (rev (fold_left (filepath.cleanStep false) (filepath.elements path) []))
    as [|e es]; [discriminate|].
  apply Join_not_empty. now inversion Hall.
Qed.

Lemma Join_not_empty_last (base e : string) :
  e <> "" -> filepath.Join [base; e] <> "".
Proof.
  intros He. cbn [filepath.Join].
  destruct (base =? "")%string.
  - destruct (String.eqb_spec e ""); [contradiction | apply Clean_not_empty].
  - apply Clean_not_empty.
Qed.

(* ================================================================== *)
(** ** The lines of a serialized configuration                         *)
(* ================================================================== *)

Section UnitFileLines.

Import PathSpec UnitFile.

Lemma textLines_line (l rest : string) :
  hasByte strings.LF l = false ->
  textLines (l ++ nl ++ rest) = l :: textLines rest.
Proof.
  induction l as [|c l IH]; intros Hl.
  - reflexivity.
  - cbn [hasByte] in Hl. apply orb_false_iff in Hl as [Hc Hl].
    cbn [append textLines]. rewrite Hc, (IH Hl). reflexivity.
Qed.

Lemma textLines_unlines (ls : list string) :
  Forall (fun l => hasByte strings.LF l = false) ls ->
  textLines (unlines ls) = ls.
Proof.
  induction 1 as [|l ls Hl _ IH]; cbn [unlines]; [reflexivity|].
  now rewrite textLines_line, IH.
Qed.

Lemma uint_digits_one_line (d : Decimal.uint) :
  hasByte strings.LF (DecimalString.NilEmpty.string_of_uint d) = false.
Proof. induction d; cbn; [reflexivity | assumption ..]. Qed.

Lemma Sprintd_one_line (n : Z) : hasByte strings.LF (fmt.Sprintd n) = false.
Proof.
  unfold fmt.Sprintd, DecimalString.NilZero.string_of_int,
    DecimalString.NilZero.string_of_uint.
  destruct (Z.to_int n) as [d|d]; destruct d;
    solve [ reflexivity | apply uint_digits_one_line
          | cbn [hasByte]; apply uint_digits_one_line
          | cbn [hasByte orb Ascii.eqb]; apply (uint_digits_one_line (_ d)) ].
Qed.

Lemma System_ToString_lines (c : System.SystemdServiceConfig) :
  System.ToString c
  = unlines (configLines "Service" (System.Unit c) (System.Service c) (System.Install c)).
Proof.
  unfold System.ToString, WriteString, configLines, nl.
  cbn [unlines]. unfold nl.
  repeat first [ rewrite append_assoc | progress cbn [append] ].
  reflexivity.
Qed.

Lemma Systemd_ToString_lines (c : Systemd.SystemdServiceConfig) :
  fst (Systemd.ToString c)
  = unlines (configLines "SystemdService" (Systemd.Unit c)
               (Systemd.SystemdService c) (Systemd.Install c)).
Proof.
  unfold Systemd.ToString, WriteString, configLines, nl, fst.
  cbn [unlines]. unfold nl.
  repeat first [ rewrite append_assoc | progress cbn [append] ].
  reflexivity.
Qed.

Lemma oneLine_entry (key value : string) :
  hasByte strings.LF key = false ->
  oneLine value = true ->
  hasByte strings.LF (key ++ value) = false.
Proof.
  unfold oneLine. rewrite negb_true_iff, hasByte_append.
  now intros -> ->.
Qed.

(** The layout of the lines written from single-line fields. *)
Lemma layout_configLines (h : string) (u : UnitSection) (s : ServiceSection)
  (i : InstallSection) :
  hasByte strings.LF h = false ->
  classify ("[" ++ h ++ "]") = Header h ->
  singleLineFields u s i = true ->
  layout (unlines (configLines h u s i)) = expectedLayout h.
Proof.
  intros Hh Hhdr Hfields. unfold singleLineFields in Hfields.
  repeat (apply andb_true_iff in Hfields as [Hfields ?]).
  unfold layout. rewrite textLines_unlines.
  - unfold configLines, expectedLayout. cbn [map]. rewrite Hhdr. reflexivity.
  - unfold configLines.
    repeat (constructor; [first [ reflexivity
                                | apply oneLine_entry; [reflexivity | assumption]
                                | idtac ] |]); try constructor.
    + cbn [append hasByte]. rewrite hasByte_append, Hh. reflexivity.
    + rewrite hasByte_append. cbn [hasByte]. apply Sprintd_one_line.
Qed.

End UnitFileLines.

(* ================================================================== *)
(** ** Claims about the service listing                                *)
(* ================================================================== *)

(** C7: from any output of the listing command, the listing under a
    non-empty filter is exactly the parsed records whose name contains the
    filter (in order, [strings.Contains] being the substring test of
    [Contains_iff]), and the listing under the empty filter is all the
    parsed records. *)
Theorem C7_filter_by_substring (output partialName : string) :
  partialName <> "" ->
  Services.GetSystemDServices (ExecOutput output) partialName
  = Returned (filter (fun s => strings.Contains (Services.Name s) partialName)
                     (ListerSpec.parsed output))
  /\ Services.GetSystemDServices (ExecOutput output) ""
     = Returned (ListerSpec.parsed output).
Proof.
  intros Hne. unfold Services.GetSystemDServices, ListerSpec.parsed.
  rewrite !scanAll_parsed. split; f_equal.
  - apply filter_ext. intros s. unfold ListerSpec.keeps.
    destruct (String.eqb_spec partialName ""); [contradiction | reflexivity].
  - now apply filter_all.
Qed.

Lemma C7_filter_by_substring_witness :
  Services.GetSystemDServices (ExecOutput sampleOutput) "gin"
  = Returned (filter (fun s => strings.Contains (Services.Name s) "gin")
                     (ListerSpec.parsed sampleOutput))
  /\ Services.GetSystemDServices (ExecOutput sampleOutput) ""
     = Returned (ListerSpec.parsed sampleOutput).
Proof. apply (C7_filter_by_substring sampleOutput "gin"). discriminate. Defined.

(** C8: a line that is not a header line, splits into at least three
    fields and passes the filter yields, at its place in the result, the
    record with name, unit file and active state from fields 0 to 2, sub
    state and load state from fields 3 and 4 where they exist and empty
    otherwise, and the path [/etc/systemd/system/<name>.service]. *)
Theorem C8_record_of_retained_line
  (partialName line f0 f1 f2 : string) (rest before after : list string) :
  strings.HasPrefix line "UNIT" = false ->
  strings.Fields line = f0 :: f1 :: f2 :: rest ->
  partialName = "" \/ strings.Contains f0 partialName = true ->
  Services.scanAll partialName (before ++ line :: after)
  = (Services.scanAll partialName before
     ++ {| Services.Name := f0;
           Services.Unit := f1;
           Services.ActiveState := f2;
           Services.SubState := nth 0 rest "";
           Services.LoadState := nth 1 rest "";
           Services.Path := "/etc/systemd/system/" ++ f0 ++ ".service" |}
     :: Services.scanAll partialName after)%list.
Proof.
  intros Hhdr Hfields Hkeep.
  rewrite scanAll_app, scanAll_cons. f_equal.
  unfold ListerSpec.parseLine, ListerSpec.skipped. rewrite Hhdr, Hfields.
  cbn [length Nat.ltb Nat.leb orb filter ListerSpec.recordOf Services.Name nth].
  assert (Hk : ListerSpec.keeps partialName f0 = true).
  { unfold ListerSpec.keeps. destruct Hkeep as [-> | ->]; [reflexivity|].
    apply orb_true_r. }
  rewrite Hk. reflexivity.
Qed.

Lemma C8_record_of_retained_line_witness :
  Services.scanAll "ron"
    (["UNIT LOAD ACTIVE SUB"] ++ "cron.service loaded active running" :: ["x"])
  = (Services.scanAll "ron" ["UNIT LOAD ACTIVE SUB"]
     ++ {| Services.Name := "cron.service";
           Services.Unit := "loaded";
           Services.ActiveState := "active";
           Services.SubState := nth 0 ["running"] "";
           Services.LoadState := nth 1 ["running"] "";
           Services.Path := "/etc/systemd/system/" ++ "cron.service" ++ ".service" |}
     :: Services.scanAll "ron" ["x"])%list.
Proof.
  apply (C8_record_of_retained_line "ron" "cron.service loaded active running"
           "cron.service" "loaded" "active" ["running"]).
  - reflexivity.
  - reflexivity.
  - right. reflexivity.
Defined.



(* ================================================================== *)
(** ** Claims about the handler of POST /service/new                   *)
(* ================================================================== *)

(** A request without [name] is answered 400. *)
Lemma post_name_required (env : Env) (c : Main.Request) :
  Main.FormValue c "name" = "" ->
  Main.status (Main.postServiceNew env c) = Main.StatusBadRequest.
Proof. intros H. unfold Main.postServiceNew. now rewrite H. Qed.

(** A request with [name] and without [path] is answered 400. *)
Lemma post_path_required (env : Env) (c : Main.Request) :
  Main.FormValue c "name" <> "" ->
  Main.FormValue c "path" = "" ->
  Main.status (Main.postServiceNew env c) = Main.StatusBadRequest.
Proof.
  intros Hn Hp. unfold Main.postServiceNew. rewrite Hp.
  destruct (String.eqb_spec (Main.FormValue c "name") ""); [contradiction|].
  reflexivity.
Qed.

(** A request whose trimmed [path] has at least two bytes and does not
    begin with [~/] is answered 400. *)
Lemma post_path_prefix_checked (env : Env) (c : Main.Request) :
  (2 <= String.length (strings.TrimSpace (Main.FormValue c "path")))%nat ->
  strings.HasPrefix (strings.TrimSpace (Main.FormValue c "path")) "~/" = false ->
  Main.status (Main.postServiceNew env c) = Main.StatusBadRequest.
Proof.
  intros Hlen Hpre. unfold Main.postServiceNew.
  destruct (Main.FormValue c "name" =? "")%string; [reflexivity|].
  destruct (Main.FormValue c "path" =? "")%string; [reflexivity|].
  set (path := strings.TrimSpace (Main.FormValue c "path")) in *.
  apply Nat.leb_le in Hlen. rewrite Hlen. cbn [andb].
  destruct path as [|a [|b r]]; try discriminate.
  revert Hpre. cbn [strings.HasPrefix sliceTo String.eqb].
  destruct (Ascii.eqb_spec "~" a) as [<-|Ha], (Ascii.eqb_spec "/" b) as [<-|Hb];
    cbn [andb]; intros Hpre; try discriminate Hpre.
  - rewrite (proj2 (Ascii.eqb_neq b "/")); [reflexivity | congruence].
  - rewrite (proj2 (Ascii.eqb_neq a "~")); [reflexivity | congruence].
  - rewrite (proj2 (Ascii.eqb_neq a "~")); [reflexivity | congruence].
Qed.

(** A request with [name] and [path] whose trimmed [path] has fewer than
    two bytes is answered 200: the test on the prefix is not made. *)
Lemma post_short_path_accepted (env : Env) (c : Main.Request) :
  Main.FormValue c "name" <> "" ->
  Main.FormValue c "path" <> "" ->
  (String.length (strings.TrimSpace (Main.FormValue c "path")) < 2)%nat ->
  Main.status (Main.postServiceNew env c) = Main.StatusOK.
Proof.
  intros Hn Hp Hlen. unfold Main.postServiceNew.
  destruct (String.eqb_spec (Main.FormValue c "name") ""); [contradiction|].
  destruct (String.eqb_spec (Main.FormValue c "path") ""); [contradiction|].
  apply Nat.leb_gt in Hlen. rewrite Hlen. reflexivity.
Qed.

(** C1, at a failing input: a request with [name = svc] and [path = a]
    carries a path that does not start with [~/], and the handler answers
    200, not 400; the test on the prefix is skipped for a trimmed path of
    fewer than two bytes. *)
Theorem C1_short_path_answered_200 (env : Env) :
  strings.HasPrefix (strings.TrimSpace (Main.FormValue (formOf "svc" "a") "path")) "~/" = false
  /\ Main.status (Main.postServiceNew env (formOf "svc" "a")) = Main.StatusOK.
Proof. split; reflexivity. Qed.

(** C4: two requests that both pass the validation of the form get the
    same body whatever their [name] and [path], the serialization of the
    configuration built from the fixed arguments [pocketbase], [~/pb],
    [pocketbase serve yourdomain.com] and the overrides User = Group =
    pocketbase. *)
Theorem C4_post_body_ignores_name_and_path (env : Env) (c1 c2 : Main.Request) :
  Main.status (Main.postServiceNew env c1) = Main.StatusOK ->
  Main.status (Main.postServiceNew env c2) = Main.StatusOK ->
  Main.body (Main.postServiceNew env c1) = Main.body (Main.postServiceNew env c2)
  /\ Main.body (Main.postServiceNew env c1)
     = fst (Systemd.ToString
              (Systemd.NewSystemdServiceConfig env "pocketbase" "~/pb"
                 "pocketbase serve yourdomain.com" (Some exampleOptions))).
Proof.
  assert (Hbody : forall c,
             Main.status (Main.postServiceNew env c) = Main.StatusOK ->
             Main.body (Main.postServiceNew env c)
             = fst (Systemd.ToString (Main.exampleConfig env))).
  { intros c. unfold Main.postServiceNew.
    destruct (Main.FormValue c "name" =? "")%string; [discriminate|].
    destruct (Main.FormValue c "path" =? "")%string; [discriminate|].
    destruct ((2 <=? _)%nat && _); [discriminate|]. reflexivity. }
  intros H1 H2. rewrite (Hbody c1 H1), (Hbody c2 H2). split; reflexivity.
Qed.

Lemma C4_post_body_ignores_name_and_path_witness :
  Main.body (Main.postServiceNew sampleEnv (formOf "nginx" "~/www"))
  = Main.body (Main.postServiceNew sampleEnv (formOf "redis" "~/cache/redis"))
  /\ Main.body (Main.postServiceNew sampleEnv (formOf "nginx" "~/www"))
     = fst (Systemd.ToString
              (Systemd.NewSystemdServiceConfig sampleEnv "pocketbase" "~/pb"
                 "pocketbase serve yourdomain.com" (Some exampleOptions))).
Proof.
  apply (C4_post_body_ignores_name_and_path sampleEnv
           (formOf "nginx" "~/www") (formOf "redis" "~/cache/redis"));
    reflexivity.
Defined.

(* ================================================================== *)
(** ** Claims about the construction of the configuration              *)
(* ================================================================== *)

(** C6: built without overrides (a nil [opts]), the configuration of
    either package has Type = simple, User = Group = root,
    LimitNOFILE = 4096, Restart = always and RestartSec = 5s. *)
Theorem C6_defaults_without_overrides
  (env : Env) (serviceName baseDir execCommand : string) :
  (Type_ (System.Service (System.NewServiceConfig env serviceName baseDir execCommand None)) = "simple"
   /\ User (System.Service (System.NewServiceConfig env serviceName baseDir execCommand None)) = "root"
   /\ Group (System.Service (System.NewServiceConfig env serviceName baseDir execCommand None)) = "root"
   /\ LimitNOFILE (System.Service (System.NewServiceConfig env serviceName baseDir execCommand None)) = 4096%Z
   /\ Restart (System.Service (System.NewServiceConfig env serviceName baseDir execCommand None)) = "always"
   /\ RestartSec (System.Service (System.NewServiceConfig env serviceName baseDir execCommand None)) = "5s")
  /\
  (Type_ (Systemd.SystemdService (Systemd.NewSystemdServiceConfig env serviceName baseDir execCommand None)) = "simple"
   /\ User (Systemd.SystemdService (Systemd.NewSystemdServiceConfig env serviceName baseDir execCommand None)) = "root"
   /\ Group (Systemd.SystemdService (Systemd.NewSystemdServiceConfig env serviceName baseDir execCommand None)) = "root"
   /\ LimitNOFILE (Systemd.SystemdService (Systemd.NewSystemdServiceConfig env serviceName baseDir execCommand None)) = 4096%Z
   /\ Restart (Systemd.SystemdService (Systemd.NewSystemdServiceConfig env serviceName baseDir execCommand None)) = "always"
   /\ RestartSec (Systemd.SystemdService (Systemd.NewSystemdServiceConfig env serviceName baseDir execCommand None)) = "5s").
Proof. repeat split. Qed.

(** Without overrides the defaults do fill the fields: every string field
    of the configuration is then non-empty, for a non-empty command. *)
Lemma fields_nonempty_without_overrides
  (env : Env) (serviceName baseDir execCommand : string) :
  execCommand <> "" ->
  Forall (fun field => field <> "")
    [ Description (System.Unit (System.NewServiceConfig env serviceName baseDir execCommand None));
      Type_ (System.Service (System.NewServiceConfig env serviceName baseDir execCommand None));
      User (System.Service (System.NewServiceConfig env serviceName baseDir execCommand None));
      Group (System.Service (System.NewServiceConfig env serviceName baseDir execCommand None));
      Restart (System.Service (System.NewServiceConfig env serviceName baseDir execCommand None));
      RestartSec (System.Service (System.NewServiceConfig env serviceName baseDir execCommand None));
      StandardOutput (System.Service (System.NewServiceConfig env serviceName baseDir execCommand None));
      StandardError (System.Service (System.NewServiceConfig env serviceName baseDir execCommand None));
      ExecStart (System.Service (System.NewServiceConfig env serviceName baseDir execCommand None));
      WantedBy (System.Install (System.NewServiceConfig env serviceName baseDir execCommand None)) ].
Proof.
  intros Hcmd.
  repeat (constructor; [first [ discriminate
                              | now apply Join_not_empty_last
                              | idtac ] |]); try constructor.
  cbn [System.NewServiceConfig System.Unit Description].
  destruct serviceName; discriminate.
Qed.

(** C2, at a failing input: built from the arguments of the example in
    its own documentation and in the handlers (overrides that set only
    User and Group), the configuration of either package has an empty
    Type, Restart and RestartSec (and LimitNOFILE = 0): the defaults are
    substituted for a nil [opts] only, never field by field. *)
Theorem C2_partial_overrides_leave_empty_fields (env : Env) :
  (Type_ (System.Service (System.NewServiceConfig env "pocketbase" "~/pb"
            "pocketbase serve yourdomain.com" (Some exampleOptions))) = ""
   /\ Restart (System.Service (System.NewServiceConfig env "pocketbase" "~/pb"
            "pocketbase serve yourdomain.com" (Some exampleOptions))) = ""
   /\ RestartSec (System.Service (System.NewServiceConfig env "pocketbase" "~/pb"
            "pocketbase serve yourdomain.com" (Some exampleOptions))) = ""
   /\ LimitNOFILE (System.Service (System.NewServiceConfig env "pocketbase" "~/pb"
            "pocketbase serve yourdomain.com" (Some exampleOptions))) = 0%Z)
  /\
  (Type_ (Systemd.SystemdService (Main.exampleConfig env)) = ""
   /\ Restart (Systemd.SystemdService (Main.exampleConfig env)) = ""
   /\ RestartSec (Systemd.SystemdService (Main.exampleConfig env)) = ""
   /\ LimitNOFILE (Systemd.SystemdService (Main.exampleConfig env)) = 0%Z).
Proof. repeat split. Qed.

(** Both constructors compute their paths under
    [absOrEmpty env (expandHome env baseDir)]. *)
Lemma System_paths (env : Env) (serviceName baseDir execCommand : string)
  (opts : option ConfigOptions) :
  ExecStart (System.Service (System.NewServiceConfig env serviceName baseDir execCommand opts))
  = filepath.Join [absOrEmpty env (expandHome env baseDir); execCommand]
  /\ StandardOutput (System.Service (System.NewServiceConfig env serviceName baseDir execCommand opts))
     = "append:" ++ filepath.Join [absOrEmpty env (expandHome env baseDir); "logs"; "service.log"]
  /\ StandardError (System.Service (System.NewServiceConfig env serviceName baseDir execCommand opts))
     = "append:" ++ filepath.Join [absOrEmpty env (expandHome env baseDir); "logs"; "service.log"].
Proof. repeat split. Qed.

(** The base directory [~/rest] under an absolute home directory. *)
Lemma baseDir_under_home (env : Env) (home rest : string) :
  os.UserHomeDir env = Some home ->
  filepath.IsAbs home = true ->
  absOrEmpty env (expandHome env ("~/" ++ rest)) = filepath.Clean (home ++ "/" ++ rest).
Proof.
  intros Hhome Habs. unfold expandHome.
  change (strings.HasPrefix ("~/" ++ rest) "~/") with true. cbv iota.
  rewrite Hhome. change (sliceFrom 2 ("~/" ++ rest)) with rest.
  rewrite Join_abs by assumption. cbn [strings.Join].
  unfold absOrEmpty, filepath.Abs.
  rewrite IsAbs_Clean by now apply IsAbs_append.
  now rewrite Clean_idempotent by now apply IsAbs_append.
Qed.

(** Joining elements under that base directory. *)
Lemma Join_under_home (home rest : string) (e : string) (es : list string) :
  filepath.IsAbs home = true ->
  filepath.Join (filepath.Clean (home ++ "/" ++ rest) :: e :: es)
  = filepath.Clean (home ++ "/" ++ rest ++ "/" ++ strings.Join (e :: es) "/").
Proof.
  intros Habs.
  rewrite Join_abs by now apply IsAbs_Clean, IsAbs_append.
  change (strings.Join (filepath.Clean (home ++ "/" ++ rest) :: e :: es) "/")
    with (filepath.Clean (home ++ "/" ++ rest) ++ "/" ++ strings.Join (e :: es) "/").
  rewrite Clean_under_Clean by now apply IsAbs_append.
  now rewrite !append_assoc.
Qed.

(** C10, as amended: when the home directory resolves to an absolute path
    [home], the configuration built from [pocketbase], [~/pb] and
    [pocketbase serve x.com] has ExecStart the clean form of
    [home/pb/pocketbase serve x.com] and StandardOutput = StandardError =
    [append:] followed by the clean form of [home/pb/logs/service.log];
    when moreover [home] is in clean form and not the root, these are the
    strings [home/pb/pocketbase serve x.com] and
    [append:home/pb/logs/service.log] themselves. *)
Theorem C10_paths_under_home (env : Env) (home : string) (opts : option ConfigOptions) :
  os.UserHomeDir env = Some home ->
  filepath.IsAbs home = true ->
  (ExecStart (System.Service (System.NewServiceConfig env "pocketbase" "~/pb"
                                "pocketbase serve x.com" opts))
   = filepath.Clean (home ++ "/pb/pocketbase serve x.com")
   /\ StandardOutput (System.Service (System.NewServiceConfig env "pocketbase" "~/pb"
                                        "pocketbase serve x.com" opts))
      = "append:" ++ filepath.Clean (home ++ "/pb/logs/service.log")
   /\ StandardError (System.Service (System.NewServiceConfig env "pocketbase" "~/pb"
                                       "pocketbase serve x.com" opts))
      = "append:" ++ filepath.Clean (home ++ "/pb/logs/service.log"))
  /\ (PathSpec.cleanAbs home ->
      ExecStart (System.Service (System.NewServiceConfig env "pocketbase" "~/pb"
                                   "pocketbase serve x.com" opts))
      = home ++ "/pb/pocketbase serve x.com"
      /\ StandardOutput (System.Service (System.NewServiceConfig env "pocketbase" "~/pb"
                                           "pocketbase serve x.com" opts))
         = "append:" ++ home ++ "/pb/logs/service.log"
      /\ StandardError (System.Service (System.NewServiceConfig env "pocketbase" "~/pb"
                                          "pocketbase serve x.com" opts))
         = "append:" ++ home ++ "/pb/logs/service.log").
Proof.
  intros Hhome Habs.
  destruct (System_paths env "pocketbase" "~/pb" "pocketbase serve x.com" opts)
    as (-> & -> & ->).
  pose proof (baseDir_under_home env home "pb" Hhome Habs) as Hbase.
  change ("~/" ++ "pb") with "~/pb" in Hbase. rewrite Hbase.
  rewrite !Join_under_home by assumption.
  change (home ++ "/" ++ "pb" ++ "/" ++ strings.Join ["logs"; "service.log"] "/")
    with (home ++ "/pb/logs/service.log").
  change (home ++ "/" ++ "pb" ++ "/" ++ strings.Join ["pocketbase serve x.com"] "/")
    with (home ++ "/pb/pocketbase serve x.com").
  split; [repeat split|].
  intros Hclean.
  destruct (cleanAbs_shape home Hclean) as (e & es & Hall & ->).
  assert (Hexec : filepath.Clean (("/" ++ strings.Join (e :: es) "/") ++ "/pb/pocketbase serve x.com")
                  = ("/" ++ strings.Join (e :: es) "/") ++ "/pb/pocketbase serve x.com").
  { change (("/" ++ strings.Join (e :: es) "/") ++ "/pb/pocketbase serve x.com")
      with ("/" ++ (strings.Join (e :: es) "/" ++ "/" ++ strings.Join ["pb"; "pocketbase serve x.com"] "/")).
    rewrite <- Join_snoc by discriminate.
    apply Clean_plain. apply Forall_app. split; [assumption|].
    repeat constructor. }
  assert (Hlog : filepath.Clean (("/" ++ strings.Join (e :: es) "/") ++ "/pb/logs/service.log")
                 = ("/" ++ strings.Join (e :: es) "/") ++ "/pb/logs/service.log").
  { change (("/" ++ strings.Join (e :: es) "/") ++ "/pb/logs/service.log")
      with ("/" ++ (strings.Join (e :: es) "/" ++ "/" ++ strings.Join ["pb"; "logs"; "service.log"] "/")).
    rewrite <- Join_snoc by discriminate.
    apply Clean_plain. apply Forall_app. split; [assumption|].
    repeat constructor. }
  rewrite Hexec, Hlog. repeat split.
Qed.

Lemma C10_paths_under_home_witness :
  (ExecStart (System.Service (System.NewServiceConfig sampleEnv "pocketbase" "~/pb"
                                "pocketbase serve x.com" None))
   = filepath.Clean ("/root" ++ "/pb/pocketbase serve x.com")
   /\ StandardOutput (System.Service (System.NewServiceConfig sampleEnv "pocketbase" "~/pb"
                                        "pocketbase serve x.com" None))
      = "append:" ++ filepath.Clean ("/root" ++ "/pb/logs/service.log")
   /\ StandardError (System.Service (System.NewServiceConfig sampleEnv "pocketbase" "~/pb"
                                       "pocketbase serve x.com" None))
      = "append:" ++ filepath.Clean ("/root" ++ "/pb/logs/service.log"))
  /\ (ExecStart (System.Service (System.NewServiceConfig sampleEnv "pocketbase" "~/pb"
                                   "pocketbase serve x.com" None))
      = "/root" ++ "/pb/pocketbase serve x.com"
      /\ StandardOutput (System.Service (System.NewServiceConfig sampleEnv "pocketbase" "~/pb"
                                           "pocketbase serve x.com" None))
         = "append:" ++ "/root" ++ "/pb/logs/service.log"
      /\ StandardError (System.Service (System.NewServiceConfig sampleEnv "pocketbase" "~/pb"
                                          "pocketbase serve x.com" None))
         = "append:" ++ "/root" ++ "/pb/logs/service.log").
Proof.
  destruct (C10_paths_under_home sampleEnv "/root" None eq_refl eq_refl) as [Hclean Hplain].
  split; [exact Hclean|].
  apply Hplain. repeat split. discriminate.
Defined.

(** C10, as stated, fails: with [HOME=home] (a relative path) and the
    working directory [/srv] the exec path is
    [/srv/home/pb/pocketbase serve x.com], not
    [home/pb/pocketbase serve x.com]; with [HOME=/] it is
    [/pb/pocketbase serve x.com], not [//pb/pocketbase serve x.com]. *)
Lemma C10_home_not_clean_counterexample :
  (os.UserHomeDir {| HOME := "home"; Getwd := Some "/srv" |} = Some "home"
   /\ ExecStart (System.Service
                   (System.NewServiceConfig {| HOME := "home"; Getwd := Some "/srv" |}
                      "pocketbase" "~/pb" "pocketbase serve x.com" None))
      = "/srv/home/pb/pocketbase serve x.com"
   /\ "/srv/home/pb/pocketbase serve x.com" <> "home" ++ "/pb/pocketbase serve x.com")
  /\
  (os.UserHomeDir {| HOME := "/"; Getwd := Some "/srv" |} = Some "/"
   /\ ExecStart (System.Service
                   (System.NewServiceConfig {| HOME := "/"; Getwd := Some "/srv" |}
                      "pocketbase" "~/pb" "pocketbase serve x.com" None))
      = "/pb/pocketbase serve x.com"
   /\ "/pb/pocketbase serve x.com" <> "/" ++ "/pb/pocketbase serve x.com").
Proof. repeat split; try reflexivity; discriminate. Qed.

(* ================================================================== *)
(** ** Claims about the serialization and the two packages            *)
(* ================================================================== *)

(** C3, as amended: for a configuration whose string fields hold no line
    feed, the text of [ToString] is, line by line: the header of the Unit
    section and its Description entry; one blank line; the header of the
    service section ([[Service]] in package system) and the entries Type,
    User, Group, LimitNOFILE, Restart, RestartSec, StandardOutput,
    StandardError, ExecStart, each once; one blank line; the header of
    the Install section and its WantedBy entry.  In package systemd the
    same holds with its own name in the header of the service section. *)
Theorem C3_layout_of_single_line_fields
  (c : System.SystemdServiceConfig) (d : Systemd.SystemdServiceConfig) :
  UnitFile.singleLineFields (System.Unit c) (System.Service c) (System.Install c) = true ->
  UnitFile.singleLineFields (Systemd.Unit d) (Systemd.SystemdService d) (Systemd.Install d) = true ->
  UnitFile.layout (System.ToString c) = UnitFile.expectedLayout "Service"
  /\ exists serviceHeader,
       UnitFile.layout (fst (Systemd.ToString d)) = UnitFile.expectedLayout serviceHeader.
Proof.
  intros Hc Hd. split.
  - rewrite System_ToString_lines.
    now apply layout_configLines.
  - exists "SystemdService". rewrite Systemd_ToString_lines.
    now apply layout_configLines.
Qed.

Lemma C3_layout_of_single_line_fields_witness :
  UnitFile.layout
    (System.ToString (System.NewServiceConfig sampleEnv "pocketbase" "~/pb"
                        "pocketbase serve x.com" None))
  = UnitFile.expectedLayout "Service"
  /\ exists serviceHeader,
       UnitFile.layout (fst (Systemd.ToString (Main.exampleConfig sampleEnv)))
       = UnitFile.expectedLayout serviceHeader.
Proof.
  apply (C3_layout_of_single_line_fields
           (System.NewServiceConfig sampleEnv "pocketbase" "~/pb"
              "pocketbase serve x.com" None)
           (Main.exampleConfig sampleEnv)); reflexivity.
Defined.

(** C3, as stated, fails: built from a service name that holds a line
    feed, the configuration is serialized to a text whose Unit section
    has two Description entries. *)
Lemma C3_line_feed_counterexample :
  UnitFile.layout
    (System.ToString (System.NewServiceConfig sampleEnv twoLineName "~/pb" "run" None))
  <> UnitFile.expectedLayout "Service"
  /\ UnitFile.keyCount "Description"
       (UnitFile.layout
          (System.ToString (System.NewServiceConfig sampleEnv twoLineName "~/pb" "run" None)))
     = 2.
Proof. split; [vm_compute; discriminate | reflexivity]. Qed.

(** C5, as amended: on every input and environment the two constructors
    build the same Unit, service and Install sections, field by field;
    the configuration of package systemd carries in addition Path =
    [filepath.Join("/lib/systemd/system", serviceName + ".service")],
    which is [/lib/systemd/system/<serviceName>.service] whenever the
    service name holds no separator; and the two serializations are the
    same text but for the line [[Service]] of the one where the other
    has [[SystemdService]]. *)
Theorem C5_constructors_agree
  (env : Env) (serviceName baseDir execCommand : string) (opts : option ConfigOptions) :
  (System.Unit (System.NewServiceConfig env serviceName baseDir execCommand opts)
   = Systemd.Unit (Systemd.NewSystemdServiceConfig env serviceName baseDir execCommand opts)
   /\ System.Service (System.NewServiceConfig env serviceName baseDir execCommand opts)
      = Systemd.SystemdService (Systemd.NewSystemdServiceConfig env serviceName baseDir execCommand opts)
   /\ System.Install (System.NewServiceConfig env serviceName baseDir execCommand opts)
      = Systemd.Install (Systemd.NewSystemdServiceConfig env serviceName baseDir execCommand opts))
  /\ Systemd.Path (Systemd.NewSystemdServiceConfig env serviceName baseDir execCommand opts)
     = filepath.Join ["/lib/systemd/system"; serviceName ++ ".service"]
  /\ (PathSpec.hasByte filepath.Separator serviceName = false ->
      Systemd.Path (Systemd.NewSystemdServiceConfig env serviceName baseDir execCommand opts)
      = "/lib/systemd/system/" ++ serviceName ++ ".service")
  /\ exists before after,
       System.ToString (System.NewServiceConfig env serviceName baseDir execCommand opts)
       = before ++ "[Service]" ++ nl ++ after
       /\ fst (Systemd.ToString (Systemd.NewSystemdServiceConfig env serviceName baseDir execCommand opts))
          = before ++ "[SystemdService]" ++ nl ++ after.
Proof.
  split; [repeat split|]. split; [reflexivity|]. split.
  - intros Hname.
    apply (Join_under "lib" (serviceName ++ ".service") ["systemd"; "system"] []).
    + repeat constructor.
    + constructor; [|constructor]. now apply plainElem_unit_name.
  - rewrite System_ToString_lines, Systemd_ToString_lines.
    set (c := System.NewServiceConfig env serviceName baseDir execCommand opts).
    exists (UnitFile.unlines ["[Unit]"; "Description=" ++ Description (System.Unit c); ""]).
    exists (UnitFile.unlines
              (skipn 4 (UnitFile.configLines "Service" (System.Unit c) (System.Service c)
                          (System.Install c)))).
    split.
    + unfold UnitFile.configLines. cbn [skipn UnitFile.unlines]. unfold nl.
      repeat first [ rewrite append_assoc | progress cbn [append] ]. reflexivity.
    + unfold UnitFile.configLines. cbn [skipn UnitFile.unlines]. unfold nl.
      repeat first [ rewrite append_assoc | progress cbn [append] ]. reflexivity.
Qed.

Lemma C5_constructors_agree_witness :
  Systemd.Path (Systemd.NewSystemdServiceConfig sampleEnv "pocketbase" "~/pb"
                  "pocketbase serve yourdomain.com" (Some exampleOptions))
  = "/lib/systemd/system/" ++ "pocketbase" ++ ".service".
Proof.
  apply (C5_constructors_agree sampleEnv "pocketbase" "~/pb"
           "pocketbase serve yourdomain.com" (Some exampleOptions)).
  reflexivity.
Defined.

(** C5, as stated, fails: for the service name [../x] the path is
    [/lib/systemd/x.service], outside [/lib/systemd/system]. *)
Lemma C5_save_path_counterexample :
  Systemd.Path (Systemd.NewSystemdServiceConfig sampleEnv "../x" "~/pb" "run" None)
  = "/lib/systemd/x.service"
  /\ "/lib/systemd/x.service" <> "/lib/systemd/system/" ++ "../x" ++ ".service".
Proof. split; [reflexivity | discriminate]. Qed.

(* ================================================================== *)
(** ** More on the service listing                                     *)
(* ================================================================== *)

Lemma append_nil_r (a : string) : a ++ "" = a.
Proof. induction a as [|x a IH]; cbn; [reflexivity | now rewrite IH]. Qed.

Lemma fieldsLoop_nonempty (cur : string) (m : list (ascii * bool)) :
  Forall (fun f => f <> "") (strings.fieldsLoop cur m).
Proof.
  revert cur. induction m as [|[c b] m IH]; intros cur; cbn [strings.fieldsLoop].
  - unfold strings.emit. destruct (String.eqb_spec cur ""); repeat constructor.
    assumption.
  - destruct b; [|apply IH].
    unfold strings.emit. destruct (String.eqb_spec cur ""); [apply IH|].
    constructor; [assumption | apply IH].
Qed.

Lemma hasAsciiSpace_append (a b : string) :
  hasAsciiSpace (a ++ b) = hasAsciiSpace a || hasAsciiSpace b.
Proof.
  induction a as [|x a IH]; cbn; [reflexivity|]. now rewrite IH, orb_assoc.
Qed.

Lemma spaceWidth_zero (c : ascii) (r : string) :
  strings.spaceWidth (String c r) = 0 -> strings.asciiSpace c = false.
Proof.
  cbn [strings.spaceWidth]. destruct (strings.asciiSpace c); [discriminate | reflexivity].
Qed.

(** A byte the mask leaves unmarked is no ASCII white space. *)
Lemma spaceMask_unmarked (skip : nat) (s : string) :
  Forall (fun cb => snd cb = false -> strings.asciiSpace (fst cb) = false)
         (strings.spaceMask skip s).
Proof.
  revert skip. induction s as [|c r IH]; intros skip; cbn [strings.spaceMask].
  - constructor.
  - destruct skip as [|k].
    + destruct (strings.spaceWidth (String c r)) eqn:Hw.
      * constructor; [|apply IH]. intros _. now apply spaceWidth_zero in Hw.
      * constructor; [discriminate | apply IH].
    + constructor; [discriminate | apply IH].
Qed.

Lemma fieldsLoop_no_space (cur : string) (m : list (ascii * bool)) :
  hasAsciiSpace cur = false ->
  Forall (fun cb => snd cb = false -> strings.asciiSpace (fst cb) = false) m ->
  Forall (fun f => hasAsciiSpace f = false) (strings.fieldsLoop cur m).
Proof.
  revert cur. induction m as [|[c b] m IH]; intros cur Hcur Hm;
    cbn [strings.fieldsLoop].
  - unfold strings.emit. destruct (cur =? "")%string; repeat constructor.
    assumption.
  - inversion Hm as [|? ? Hc Hrest]; subst. destruct b.
    + unfold strings.emit. destruct (cur =? "")%string.
      * now apply IH.
      * constructor; [assumption | now apply IH].
    + apply IH; [|assumption].
      specialize (Hc eq_refl). cbn [fst] in Hc.
      rewrite hasAsciiSpace_append, Hcur. cbn [hasAsciiSpace orb]. now rewrite Hc.
Qed.

(** The fields of a line are not empty and hold no ASCII white space. *)
Lemma Fields_shape (s : string) :
  Forall (fun f => f <> "" /\ hasAsciiSpace f = false) (strings.Fields s).
Proof.
  unfold strings.Fields.
  pose proof (fieldsLoop_nonempty "" (strings.spaceMask 0 s)) as H1.
  pose proof (fieldsLoop_no_space "" (strings.spaceMask 0 s) eq_refl
                (spaceMask_unmarked 0 s)) as H2.
  rewrite Forall_forall in *. intros f Hf. split; [now apply H1 | now apply H2].
Qed.

Lemma parseLine_wellFormed (line : string) :
  Forall wellFormedRecord (ListerSpec.parseLine line).
Proof.
  unfold ListerSpec.parseLine, ListerSpec.skipped.
  destruct (strings.HasPrefix line "UNIT"); [constructor|]. cbn [orb].
  pose proof (Fields_shape line) as Hshape.
  destruct (strings.Fields line) as [|f0 [|f1 [|f2 rest]]]; try constructor;
    [|constructor].
  inversion Hshape as [|? ? [H0 Hs0] Hshape1]; subst.
  inversion Hshape1 as [|? ? [H1 _] Hshape2]; subst.
  inversion Hshape2 as [|? ? [H2 _] _]; subst.
  unfold wellFormedRecord. cbn. repeat split; assumption.
Qed.

Lemma scanAll_wellFormed (partialName : string) (lines : list string) :
  Forall wellFormedRecord (Services.scanAll partialName lines).
Proof.
  rewrite scanAll_parsed. rewrite Forall_forall. intros s Hs.
  apply filter_In in Hs as [Hs _]. apply in_flat_map in Hs as (line & _ & Hs).
  pose proof (parseLine_wellFormed line) as Hall.
  rewrite Forall_forall in Hall. now apply Hall.
Qed.

(** X1: every record a listing returns has a non-empty name, unit and
    active state, a name without ASCII white space, and the path
    [/etc/systemd/system/<name>.service]. *)
Theorem X1_returned_records_well_formed
  (cmd : ExecResult) (partialName : string) (services : list Services.Service) :
  Services.GetSystemDServices cmd partialName = Returned services ->
  Forall wellFormedRecord services.
Proof.
  unfold Services.GetSystemDServices. destruct cmd as [output|]; [|discriminate].
  intros [= <-]. apply scanAll_wellFormed.
Qed.

Lemma X1_returned_records_well_formed_witness :
  Forall wellFormedRecord
    (Services.scanAll "" (strings.ScanLines sampleOutput)).
Proof.
  apply (X1_returned_records_well_formed (ExecOutput sampleOutput) "").
  reflexivity.
Defined.

Lemma parseLine_length (line : string) : length (ListerSpec.parseLine line) <= 1.
Proof.
  unfold ListerSpec.parseLine. destruct (ListerSpec.skipped line); cbn; lia.
Qed.

Lemma filter_length_le {A : Type} (f : A -> bool) (l : list A) :
  length (filter f l) <= length l.
Proof.
  induction l as [|x l IH]; cbn; [lia|]. destruct (f x); cbn; lia.
Qed.

Lemma flat_map_parseLine_length (lines : list string) :
  length (flat_map ListerSpec.parseLine lines) <= length lines.
Proof.
  induction lines as [|line lines IH]; cbn [flat_map length]; [lia|].
  rewrite length_app. pose proof (parseLine_length line). lia.
Qed.

(** X2: a listing holds at most one record per line of the command's
    output. *)
Theorem X2_at_most_one_record_per_line
  (output partialName : string) (services : list Services.Service) :
  Services.GetSystemDServices (ExecOutput output) partialName = Returned services ->
  length services <= length (strings.ScanLines output).
Proof.
  unfold Services.GetSystemDServices. intros [= <-].
  rewrite scanAll_parsed.
  etransitivity; [apply filter_length_le | apply flat_map_parseLine_length].
Qed.

Lemma X2_at_most_one_record_per_line_witness :
  length (Services.scanAll "" (strings.ScanLines sampleOutput))
  <= length (strings.ScanLines sampleOutput).
Proof.
  apply (X2_at_most_one_record_per_line sampleOutput "").
  reflexivity.
Defined.

Lemma filter_filter {A : Type} (f g : A -> bool) (l : list A) :
  filter f (filter g l) = filter (fun x => f x && g x) l.
Proof.
  induction l as [|x l IH]; cbn; [reflexivity|].
  destruct (g x); cbn; rewrite ?andb_true_r, ?andb_false_r.
  - destruct (f x); now rewrite IH.
  - exact IH.
Qed.

Lemma Contains_trans (name p q : string) :
  strings.Contains name p = true -> strings.Contains p q = true ->
  strings.Contains name q = true.
Proof.
  rewrite !Contains_iff. intros (a & b & ->) (c & d & ->).
  exists (a ++ c), (d ++ b). now rewrite !append_assoc.
Qed.

(** X3: filtering can be staged.  When the filter [q] occurs in the
    non-empty filter [p], the listing under [p] is the listing under [q]
    narrowed to the names that contain [p]. *)
Theorem X3_narrower_filter_narrows_listing (output p q : string) :
  p <> "" ->
  strings.Contains p q = true ->
  Services.scanAll p (strings.ScanLines output)
  = filter (fun s => strings.Contains (Services.Name s) p)
           (Services.scanAll q (strings.ScanLines output)).
Proof.
  intros Hp Hpq. rewrite !scanAll_parsed, filter_filter.
  apply filter_ext. intros s. unfold ListerSpec.keeps.
  destruct (String.eqb_spec p ""); [contradiction|]. cbn [orb].
  destruct (strings.Contains (Services.Name s) p) eqn:Hs; [|reflexivity].
  rewrite (Contains_trans _ _ _ Hs Hpq). now rewrite orb_true_r.
Qed.

Lemma X3_narrower_filter_narrows_listing_witness :
  Services.scanAll "nginx" (strings.ScanLines sampleOutput)
  = filter (fun s => strings.Contains (Services.Name s) "nginx")
           (Services.scanAll "gin" (strings.ScanLines sampleOutput)).
Proof.
  apply (X3_narrower_filter_narrows_listing sampleOutput "nginx" "gin").
  - discriminate.
  - reflexivity.
Defined.



Lemma filter_none {A : Type} (f : A -> bool) (l : list A) :
  (forall x, In x l -> f x = false) -> filter f l = [].
Proof.
  induction l as [|x l IH]; intros Hf; cbn; [reflexivity|].
  rewrite (Hf x (or_introl eq_refl)). apply IH. intros y Hy. apply Hf. now right.
Qed.

(** X5: a filter that holds a space, a tab or another ASCII white-space
    byte matches no service: the listing returns and is empty. *)
Theorem X5_filter_with_white_space_matches_nothing (output partialName : string) :
  hasAsciiSpace partialName = true ->
  Services.GetSystemDServices (ExecOutput output) partialName = Returned [].
Proof.
  intros Hspace. unfold Services.GetSystemDServices. f_equal.
  rewrite scanAll_parsed. apply filter_none. intros s Hs.
  assert (Hwf : wellFormedRecord s).
  { apply in_flat_map in Hs as (line & _ & Hs).
    pose proof (parseLine_wellFormed line) as Hall.
    rewrite Forall_forall in Hall. now apply Hall. }
  destruct Hwf as (_ & _ & _ & Hname & _).
  unfold ListerSpec.keeps.
  destruct (String.eqb_spec partialName "") as [-> | _]; [discriminate|].
  cbn [orb]. destruct (strings.Contains (Services.Name s) partialName) eqn:Hc;
    [|reflexivity].
  apply Contains_iff in Hc as (a & b & Heq). rewrite Heq in Hname.
  rewrite !hasAsciiSpace_append, Hspace, orb_true_r in Hname. discriminate.
Qed.

Lemma X5_filter_with_white_space_matches_nothing_witness :
  Services.GetSystemDServices (ExecOutput sampleOutput) "nginx.service loaded"
  = Returned [].
Proof.
  apply (X5_filter_with_white_space_matches_nothing sampleOutput "nginx.service loaded").
  reflexivity.
Defined.

(* ================================================================== *)
(** ** More on the construction of the configuration                   *)
(* ================================================================== *)

(** The paths of the service section built by either constructor. *)
Lemma built_paths (env : Env) (serviceName baseDir execCommand : string)
  (opts : option ConfigOptions) (s : ServiceSection) :
  s = System.Service (System.NewServiceConfig env serviceName baseDir execCommand opts)
  \/ s = Systemd.SystemdService
           (Systemd.NewSystemdServiceConfig env serviceName baseDir execCommand opts) ->
  ExecStart s = filepath.Join [absOrEmpty env (expandHome env baseDir); execCommand]
  /\ StandardOutput s
     = "append:" ++ filepath.Join [absOrEmpty env (expandHome env baseDir); "logs"; "service.log"]
  /\ StandardError s
     = "append:" ++ filepath.Join [absOrEmpty env (expandHome env baseDir); "logs"; "service.log"].
Proof. intros [-> | ->]; repeat split. Qed.

Lemma IsAbs_not_home (baseDir : string) :
  filepath.IsAbs baseDir = true -> strings.HasPrefix baseDir "~/" = false.
Proof. intros Habs. apply IsAbs_iff in Habs as [r ->]. reflexivity. Qed.

(** X6: an absolute base directory makes the result independent of the
    environment: neither the home directory nor the working directory is
    consulted. *)
Theorem X6_absolute_base_ignores_environment
  (env1 env2 : Env) (serviceName baseDir execCommand : string)
  (opts : option ConfigOptions) :
  filepath.IsAbs baseDir = true ->
  System.NewServiceConfig env1 serviceName baseDir execCommand opts
  = System.NewServiceConfig env2 serviceName baseDir execCommand opts
  /\ Systemd.NewSystemdServiceConfig env1 serviceName baseDir execCommand opts
     = Systemd.NewSystemdServiceConfig env2 serviceName baseDir execCommand opts.
Proof.
  intros Habs. apply IsAbs_iff in Habs as [r ->]. split; reflexivity.
Qed.

Lemma X6_absolute_base_ignores_environment_witness :
  System.NewServiceConfig sampleEnv "api" "/opt/api" "server --port 80" None
  = System.NewServiceConfig {| HOME := ""; Getwd := None |} "api" "/opt/api"
      "server --port 80" None
  /\ Systemd.NewSystemdServiceConfig sampleEnv "api" "/opt/api" "server --port 80" None
     = Systemd.NewSystemdServiceConfig {| HOME := ""; Getwd := None |} "api" "/opt/api"
         "server --port 80" None.
Proof.
  apply (X6_absolute_base_ignores_environment sampleEnv {| HOME := ""; Getwd := None |}
           "api" "/opt/api" "server --port 80" None).
  reflexivity.
Defined.

(** A base directory that is not expanded and not absolute is joined to
    the working directory. *)
Lemma baseDir_under_cwd (env : Env) (wd baseDir : string) :
  Getwd env = Some wd ->
  filepath.IsAbs wd = true ->
  filepath.IsAbs baseDir = false ->
  expandHome env baseDir = baseDir ->
  absOrEmpty env (expandHome env baseDir) = filepath.Clean (wd ++ "/" ++ baseDir).
Proof.
  intros Hwd Habs Hrel ->. unfold absOrEmpty, filepath.Abs.
  rewrite Hrel, Hwd. now rewrite Join_abs.
Qed.

Lemma paths_under_cwd (env : Env) (wd baseDir execCommand : string) :
  Getwd env = Some wd ->
  filepath.IsAbs wd = true ->
  filepath.IsAbs baseDir = false ->
  expandHome env baseDir = baseDir ->
  filepath.Join [absOrEmpty env (expandHome env baseDir); execCommand]
  = filepath.Clean (wd ++ "/" ++ baseDir ++ "/" ++ execCommand)
  /\ filepath.Join [absOrEmpty env (expandHome env baseDir); "logs"; "service.log"]
     = filepath.Clean (wd ++ "/" ++ baseDir ++ "/logs/service.log").
Proof.
  intros Hwd Habs Hrel Hexp.
  rewrite (baseDir_under_cwd env wd baseDir Hwd Habs Hrel Hexp).
  rewrite !Join_under_home by assumption. split; reflexivity.
Qed.

(** X7: a relative base directory without the prefix [~/] is resolved
    against the working directory, whatever the home directory: the exec
    path is the clean form of [<wd>/<baseDir>/<execCommand>] and both
    output targets are [append:] followed by the clean form of
    [<wd>/<baseDir>/logs/service.log]. *)
Theorem X7_relative_base_under_working_directory
  (env : Env) (wd serviceName baseDir execCommand : string)
  (opts : option ConfigOptions) (s : ServiceSection) :
  s = System.Service (System.NewServiceConfig env serviceName baseDir execCommand opts)
  \/ s = Systemd.SystemdService
           (Systemd.NewSystemdServiceConfig env serviceName baseDir execCommand opts) ->
  Getwd env = Some wd ->
  filepath.IsAbs wd = true ->
  filepath.IsAbs baseDir = false ->
  strings.HasPrefix baseDir "~/" = false ->
  ExecStart s = filepath.Clean (wd ++ "/" ++ baseDir ++ "/" ++ execCommand)
  /\ StandardOutput s = "append:" ++ filepath.Clean (wd ++ "/" ++ baseDir ++ "/logs/service.log")
  /\ StandardError s = "append:" ++ filepath.Clean (wd ++ "/" ++ baseDir ++ "/logs/service.log").
Proof.
  intros Hs Hwd Habs Hrel Hpre.
  destruct (built_paths env serviceName baseDir execCommand opts s Hs) as (-> & -> & ->).
  assert (Hexp : expandHome env baseDir = baseDir).
  { unfold expandHome. now rewrite Hpre. }
  destruct (paths_under_cwd env wd baseDir execCommand Hwd Habs Hrel Hexp) as [-> ->].
  repeat split.
Qed.

Lemma X7_relative_base_under_working_directory_witness :
  ExecStart (System.Service (System.NewServiceConfig sampleEnv "api" "apps/../api" "run" None))
  = filepath.Clean ("/srv" ++ "/" ++ "apps/../api" ++ "/" ++ "run")
  /\ StandardOutput (System.Service (System.NewServiceConfig sampleEnv "api" "apps/../api" "run" None))
     = "append:" ++ filepath.Clean ("/srv" ++ "/" ++ "apps/../api" ++ "/logs/service.log")
  /\ StandardError (System.Service (System.NewServiceConfig sampleEnv "api" "apps/../api" "run" None))
     = "append:" ++ filepath.Clean ("/srv" ++ "/" ++ "apps/../api" ++ "/logs/service.log").
Proof.
  apply (X7_relative_base_under_working_directory sampleEnv "/srv" "api" "apps/../api"
           "run" None); try reflexivity.
  left. reflexivity.
Defined.

(** X8: when the home directory cannot be resolved ([HOME] unset or
    empty) a base directory [~/<rest>] is kept as it is and resolved
    against the working directory like any relative path: the paths lie
    under [<wd>/~/<rest>]. *)
Theorem X8_unresolved_home_keeps_tilde
  (env : Env) (wd serviceName rest execCommand : string)
  (opts : option ConfigOptions) (s : ServiceSection) :
  s = System.Service (System.NewServiceConfig env serviceName ("~/" ++ rest) execCommand opts)
  \/ s = Systemd.SystemdService
           (Systemd.NewSystemdServiceConfig env serviceName ("~/" ++ rest) execCommand opts) ->
  HOME env = "" ->
  Getwd env = Some wd ->
  filepath.IsAbs wd = true ->
  ExecStart s = filepath.Clean (wd ++ "/~/" ++ rest ++ "/" ++ execCommand)
  /\ StandardOutput s = "append:" ++ filepath.Clean (wd ++ "/~/" ++ rest ++ "/logs/service.log")
  /\ StandardError s = "append:" ++ filepath.Clean (wd ++ "/~/" ++ rest ++ "/logs/service.log").
Proof.
  intros Hs Hhome Hwd Habs.
  destruct (built_paths env serviceName ("~/" ++ rest) execCommand opts s Hs)
    as (-> & -> & ->).
  assert (Hexp : expandHome env ("~/" ++ rest) = "~/" ++ rest).
  { unfold expandHome, os.UserHomeDir. rewrite Hhome. reflexivity. }
  destruct (paths_under_cwd env wd ("~/" ++ rest) execCommand Hwd Habs eq_refl Hexp)
    as [-> ->].
  repeat split.
Qed.

Lemma X8_unresolved_home_keeps_tilde_witness :
  ExecStart (System.Service
               (System.NewServiceConfig {| HOME := ""; Getwd := Some "/srv" |}
                  "pocketbase" ("~/" ++ "pb") "pocketbase serve" None))
  = filepath.Clean ("/srv" ++ "/~/" ++ "pb" ++ "/" ++ "pocketbase serve")
  /\ StandardOutput (System.Service
                       (System.NewServiceConfig {| HOME := ""; Getwd := Some "/srv" |}
                          "pocketbase" ("~/" ++ "pb") "pocketbase serve" None))
     = "append:" ++ filepath.Clean ("/srv" ++ "/~/" ++ "pb" ++ "/logs/service.log")
  /\ StandardError (System.Service
                      (System.NewServiceConfig {| HOME := ""; Getwd := Some "/srv" |}
                         "pocketbase" ("~/" ++ "pb") "pocketbase serve" None))
     = "append:" ++ filepath.Clean ("/srv" ++ "/~/" ++ "pb" ++ "/logs/service.log").
Proof.
  apply (X8_unresolved_home_keeps_tilde {| HOME := ""; Getwd := Some "/srv" |} "/srv"
           "pocketbase" "pb" "pocketbase serve" None); try reflexivity.
  left. reflexivity.
Defined.

(** X9: when the working directory cannot be determined either, a base
    directory that is neither absolute nor expanded is lost: the output
    targets are the relative [append:logs/service.log] and the exec path
    is the clean form of the command alone (empty for an empty
    command). *)
Theorem X9_no_working_directory_gives_relative_paths
  (env : Env) (serviceName baseDir execCommand : string)
  (opts : option ConfigOptions) (s : ServiceSection) :
  s = System.Service (System.NewServiceConfig env serviceName baseDir execCommand opts)
  \/ s = Systemd.SystemdService
           (Systemd.NewSystemdServiceConfig env serviceName baseDir execCommand opts) ->
  Getwd env = None ->
  filepath.IsAbs baseDir = false ->
  strings.HasPrefix baseDir "~/" = false \/ HOME env = "" ->
  ExecStart s = (if (execCommand =? "")%string then "" else filepath.Clean execCommand)
  /\ StandardOutput s = "append:logs/service.log"
  /\ StandardError s = "append:logs/service.log".
Proof.
  intros Hs Hwd Hrel Hkeep.
  destruct (built_paths env serviceName baseDir execCommand opts s Hs) as (-> & -> & ->).
  assert (Hexp : expandHome env baseDir = baseDir).
  { unfold expandHome, os.UserHomeDir.
    destruct Hkeep as [-> | ->]; [reflexivity|].
    destruct (strings.HasPrefix baseDir "~/"); reflexivity. }
  assert (Hbase : absOrEmpty env (expandHome env baseDir) = "").
  { rewrite Hexp. unfold absOrEmpty, filepath.Abs. now rewrite Hrel, Hwd. }
  rewrite Hbase. repeat split.
Qed.

Lemma X9_no_working_directory_gives_relative_paths_witness :
  ExecStart (System.Service
               (System.NewServiceConfig {| HOME := ""; Getwd := None |}
                  "api" "apps/api" "run" None))
  = (if ("run" =? "")%string then "" else filepath.Clean "run")
  /\ StandardOutput (System.Service
                       (System.NewServiceConfig {| HOME := ""; Getwd := None |}
                          "api" "apps/api" "run" None))
     = "append:logs/service.log"
  /\ StandardError (System.Service
                      (System.NewServiceConfig {| HOME := ""; Getwd := None |}
                         "api" "apps/api" "run" None))
     = "append:logs/service.log".
Proof.
  apply (X9_no_working_directory_gives_relative_paths {| HOME := ""; Getwd := None |}
           "api" "apps/api" "run" None); try reflexivity.
  - left. reflexivity.
  - left. reflexivity.
Defined.

(** X10: under an absolute home directory a base directory [~/<rest>] is
    expanded without the working directory: the exec path is the clean
    form of [<home>/<rest>/<execCommand>] and both output targets are
    [append:] followed by the clean form of
    [<home>/<rest>/logs/service.log]. *)
Theorem X10_home_expansion
  (env : Env) (home serviceName rest execCommand : string)
  (opts : option ConfigOptions) (s : ServiceSection) :
  s = System.Service (System.NewServiceConfig env serviceName ("~/" ++ rest) execCommand opts)
  \/ s = Systemd.SystemdService
           (Systemd.NewSystemdServiceConfig env serviceName ("~/" ++ rest) execCommand opts) ->
  os.UserHomeDir env = Some home ->
  filepath.IsAbs home = true ->
  ExecStart s = filepath.Clean (home ++ "/" ++ rest ++ "/" ++ execCommand)
  /\ StandardOutput s = "append:" ++ filepath.Clean (home ++ "/" ++ rest ++ "/logs/service.log")
  /\ StandardError s = "append:" ++ filepath.Clean (home ++ "/" ++ rest ++ "/logs/service.log").
Proof.
  intros Hs Hhome Habs.
  destruct (built_paths env serviceName ("~/" ++ rest) execCommand opts s Hs)
    as (-> & -> & ->).
  rewrite (baseDir_under_home env home rest Hhome Habs).
  rewrite !Join_under_home by assumption. repeat split.
Qed.

Lemma X10_home_expansion_witness :
  ExecStart (Systemd.SystemdService
               (Systemd.NewSystemdServiceConfig {| HOME := "/home/bob/"; Getwd := None |}
                  "node" ("~/" ++ "my-node-server") "node /dist/index.js" None))
  = filepath.Clean ("/home/bob/" ++ "/" ++ "my-node-server" ++ "/" ++ "node /dist/index.js")
  /\ StandardOutput (Systemd.SystemdService
               (Systemd.NewSystemdServiceConfig {| HOME := "/home/bob/"; Getwd := None |}
                  "node" ("~/" ++ "my-node-server") "node /dist/index.js" None))
     = "append:" ++ filepath.Clean ("/home/bob/" ++ "/" ++ "my-node-server" ++ "/logs/service.log")
  /\ StandardError (Systemd.SystemdService
               (Systemd.NewSystemdServiceConfig {| HOME := "/home/bob/"; Getwd := None |}
                  "node" ("~/" ++ "my-node-server") "node /dist/index.js" None))
     = "append:" ++ filepath.Clean ("/home/bob/" ++ "/" ++ "my-node-server" ++ "/logs/service.log").
Proof.
  apply (X10_home_expansion {| HOME := "/home/bob/"; Getwd := None |} "/home/bob/"
           "node" "my-node-server" "node /dist/index.js" None); try reflexivity.
  right. reflexivity.
Defined.

(** With an absolute working directory the base directory is always
    made absolute. *)
Lemma baseDir_absolute (env : Env) (wd baseDir : string) :
  Getwd env = Some wd ->
  filepath.IsAbs wd = true ->
  filepath.IsAbs (absOrEmpty env (expandHome env baseDir)) = true.
Proof.
  intros Hwd Habs. unfold absOrEmpty, filepath.Abs.
  destruct (filepath.IsAbs (expandHome env baseDir)) eqn:Hx.
  - now apply IsAbs_Clean.
  - rewrite Hwd, Join_abs by assumption. now apply IsAbs_Clean, IsAbs_append.
Qed.

Lemma Join_absolute_clean (base : string) (rest : list string) :
  filepath.IsAbs base = true ->
  filepath.IsAbs (filepath.Join (base :: rest)) = true
  /\ filepath.Clean (filepath.Join (base :: rest)) = filepath.Join (base :: rest).
Proof.
  intros Habs. rewrite Join_abs by assumption.
  assert (Hj : filepath.IsAbs (strings.Join (base :: rest) "/") = true).
  { destruct rest; [assumption|]. now apply IsAbs_append. }
  split; [now apply IsAbs_Clean | now apply Clean_idempotent].
Qed.

(** X11: whenever the working directory is known (and absolute), the exec
    path and the log path behind both output targets are absolute paths
    in clean form, for every base directory and command. *)
Theorem X11_paths_absolute_and_clean
  (env : Env) (wd serviceName baseDir execCommand : string)
  (opts : option ConfigOptions) (s : ServiceSection) :
  s = System.Service (System.NewServiceConfig env serviceName baseDir execCommand opts)
  \/ s = Systemd.SystemdService
           (Systemd.NewSystemdServiceConfig env serviceName baseDir execCommand opts) ->
  Getwd env = Some wd ->
  filepath.IsAbs wd = true ->
  (filepath.IsAbs (ExecStart s) = true /\ filepath.Clean (ExecStart s) = ExecStart s)
  /\ exists logPath,
       StandardOutput s = "append:" ++ logPath
       /\ StandardError s = "append:" ++ logPath
       /\ filepath.IsAbs logPath = true
       /\ filepath.Clean logPath = logPath.
Proof.
  intros Hs Hwd Habs.
  destruct (built_paths env serviceName baseDir execCommand opts s Hs) as (-> & -> & ->).
  pose proof (baseDir_absolute env wd baseDir Hwd Habs) as Hbase.
  split.
  - now apply Join_absolute_clean.
  - eexists. split; [reflexivity|]. split; [reflexivity|].
    now apply Join_absolute_clean.
Qed.

Lemma X11_paths_absolute_and_clean_witness :
  (filepath.IsAbs (ExecStart (System.Service
      (System.NewServiceConfig sampleEnv "api" "./api//bin/.." "run --url http://x" None))) = true
   /\ filepath.Clean (ExecStart (System.Service
      (System.NewServiceConfig sampleEnv "api" "./api//bin/.." "run --url http://x" None)))
      = ExecStart (System.Service
      (System.NewServiceConfig sampleEnv "api" "./api//bin/.." "run --url http://x" None)))
  /\ exists logPath,
       StandardOutput (System.Service
         (System.NewServiceConfig sampleEnv "api" "./api//bin/.." "run --url http://x" None))
       = "append:" ++ logPath
       /\ StandardError (System.Service
         (System.NewServiceConfig sampleEnv "api" "./api//bin/.." "run --url http://x" None))
          = "append:" ++ logPath
       /\ filepath.IsAbs logPath = true
       /\ filepath.Clean logPath = logPath.
Proof.
  apply (X11_paths_absolute_and_clean sampleEnv "/srv" "api" "./api//bin/.."
           "run --url http://x" None); try reflexivity.
  left. reflexivity.
Defined.

(** X12: the save path of package systemd is an absolute path in clean
    form for every service name. *)
Theorem X12_save_path_absolute_and_clean
  (env : Env) (serviceName baseDir execCommand : string) (opts : option ConfigOptions) :
  filepath.IsAbs
    (Systemd.Path (Systemd.NewSystemdServiceConfig env serviceName baseDir execCommand opts))
  = true
  /\ filepath.Clean
       (Systemd.Path (Systemd.NewSystemdServiceConfig env serviceName baseDir execCommand opts))
     = Systemd.Path (Systemd.NewSystemdServiceConfig env serviceName baseDir execCommand opts).
Proof.
  change (Systemd.Path
            (Systemd.NewSystemdServiceConfig env serviceName baseDir execCommand opts))
    with (filepath.Join ["/lib/systemd/system"; serviceName ++ ".service"]).
  now apply Join_absolute_clean.
Qed.

Lemma Contains_skip_plain (e t : string) :
  PathSpec.hasByte filepath.Separator e = false ->
  strings.Contains (e ++ t) "//" = strings.Contains t "//".
Proof.
  induction e as [|c e IH]; intros He; [reflexivity|].
  cbn [PathSpec.hasByte] in He. apply orb_false_iff in He as [Hc He].
  cbn [append strings.Contains strings.HasPrefix].
  unfold filepath.Separator in Hc. rewrite Ascii.eqb_sym, Hc. cbn [andb orb].
  now apply IH.
Qed.

Lemma HasPrefix_plain_sep (e t : string) :
  PathSpec.plainElem e = true -> strings.HasPrefix (e ++ t) "/" = false.
Proof.
  intros He. apply plainElem_inv in He as (H0 & _ & _ & Hsep).
  destruct e as [|c e]; [discriminate|].
  cbn [PathSpec.hasByte] in Hsep. apply orb_false_iff in Hsep as [Hc _].
  cbn [append strings.HasPrefix]. unfold filepath.Separator in Hc.
  rewrite Ascii.eqb_sym, Hc. reflexivity.
Qed.

Lemma Contains_skip_elem (e t : string) :
  PathSpec.plainElem e = true ->
  strings.Contains (String "/" (e ++ t)) "//" = strings.Contains t "//".
Proof.
  intros He. pose proof (HasPrefix_plain_sep e t He) as Hpre.
  apply plainElem_inv in He as (_ & _ & _ & Hsep).
  cbn [strings.Contains strings.HasPrefix].
  rewrite Ascii.eqb_refl. cbn [strings.HasPrefix] in Hpre. rewrite Hpre.
  cbn [andb orb]. now apply Contains_skip_plain.
Qed.

Lemma no_double_separator (es : list string) :
  Forall (fun e => PathSpec.plainElem e = true) es ->
  strings.Contains ("/" ++ strings.Join es "/") "//" = false.
Proof.
  induction 1 as [|e es He Hes IH]; [reflexivity|].
  destruct es as [|e2 es].
  - change ("/" ++ strings.Join [e] "/") with (String "/" e).
    rewrite <- (append_nil_r e). now rewrite Contains_skip_elem.
  - change ("/" ++ strings.Join (e :: e2 :: es) "/")
      with (String "/" (e ++ "/" ++ strings.Join (e2 :: es) "/")).
    rewrite Contains_skip_elem by assumption. exact IH.
Qed.

(** X13: whenever the working directory is known (and absolute), the exec
    path never holds two consecutive separators: an exec command with
    [//] in it, such as a URL argument, is not carried over as written. *)
Theorem X13_exec_path_has_no_double_separator
  (env : Env) (wd serviceName baseDir execCommand : string)
  (opts : option ConfigOptions) (s : ServiceSection) :
  s = System.Service (System.NewServiceConfig env serviceName baseDir execCommand opts)
  \/ s = Systemd.SystemdService
           (Systemd.NewSystemdServiceConfig env serviceName baseDir execCommand opts) ->
  Getwd env = Some wd ->
  filepath.IsAbs wd = true ->
  strings.Contains (ExecStart s) "//" = false.
Proof.
  intros Hs Hwd Habs.
  destruct (built_paths env serviceName baseDir execCommand opts s Hs) as (-> & _ & _).
  pose proof (baseDir_absolute env wd baseDir Hwd Habs) as Hbase.
  rewrite Join_abs by assumption.
  destruct (Clean_rooted_shape
              (strings.Join [absOrEmpty env (expandHome env baseDir); execCommand] "/")
              (IsAbs_append _ _ Hbase)) as (es & Hes & ->).
  now apply no_double_separator.
Qed.

Lemma X13_exec_path_has_no_double_separator_witness :
  strings.Contains
    (ExecStart (System.Service
       (System.NewServiceConfig sampleEnv "api" "~/api" "run --url http://x.com" None)))
    "//" = false.
Proof.
  apply (X13_exec_path_has_no_double_separator sampleEnv "/srv" "api" "~/api"
           "run --url http://x.com" None); try reflexivity.
  left. reflexivity.
Defined.

(* ================================================================== *)
(** ** More on the serialization                                       *)
(* ================================================================== *)

Lemma to_int_not_nil (n : Z) :
  Z.to_int n <> Decimal.Pos Decimal.Nil /\ Z.to_int n <> Decimal.Neg Decimal.Nil.
Proof.
  destruct n as [|p|p]; cbn; split; try discriminate;
    intros [= H]; now apply DecimalPos.Unsigned.to_uint_nonnil in H.
Qed.

(** [%d] writes different integers differently. *)
Lemma Sprintd_inj (n m : Z) : fmt.Sprintd n = fmt.Sprintd m -> n = m.
Proof.
  unfold fmt.Sprintd. intros H.
  apply (f_equal DecimalString.NilZero.int_of_string) in H.
  destruct (to_int_not_nil n) as [Hn1 Hn2], (to_int_not_nil m) as [Hm1 Hm2].
  rewrite !DecimalString.NilZero.isi in H by assumption.
  injection H as H. now apply DecimalZ.to_int_inj.
Qed.

Lemma configLines_one_line (h : string) (u : UnitSection) (s : ServiceSection)
  (i : InstallSection) :
  PathSpec.hasByte strings.LF h = false ->
  UnitFile.singleLineFields u s i = true ->
  Forall (fun l => PathSpec.hasByte strings.LF l = false) (UnitFile.configLines h u s i).
Proof.
  intros Hh Hfields. unfold UnitFile.singleLineFields in Hfields.
  repeat (apply andb_true_iff in Hfields as [Hfields ?]).
  unfold UnitFile.configLines.
  repeat (constructor; [first [ reflexivity
                              | apply oneLine_entry; [reflexivity | assumption]
                              | idtac ] |]); try constructor.
  - cbn [append PathSpec.hasByte]. rewrite hasByte_append, Hh. reflexivity.
  - rewrite hasByte_append. cbn [PathSpec.hasByte]. apply Sprintd_one_line.
Qed.

(** The lines written from single-line fields determine the fields. *)
Lemma configLines_inj (h : string) (u1 u2 : UnitSection) (s1 s2 : ServiceSection)
  (i1 i2 : InstallSection) :
  PathSpec.hasByte strings.LF h = false ->
  UnitFile.singleLineFields u1 s1 i1 = true ->
  UnitFile.singleLineFields u2 s2 i2 = true ->
  UnitFile.unlines (UnitFile.configLines h u1 s1 i1)
  = UnitFile.unlines (UnitFile.configLines h u2 s2 i2) ->
  u1 = u2 /\ s1 = s2 /\ i1 = i2.
Proof.
  intros Hh H1 H2 Heq.
  apply (f_equal UnitFile.textLines) in Heq.
  rewrite !textLines_unlines in Heq by now apply configLines_one_line.
  unfold UnitFile.configLines in Heq.
  destruct u1 as [d1], u2 as [d2], i1 as [w1], i2 as [w2].
  destruct s1 as [t1 us1 g1 n1 r1 rs1 so1 se1 e1], s2 as [t2 us2 g2 n2 r2 rs2 so2 se2 e2].
  cbn [Description Type_ User Group LimitNOFILE Restart RestartSec StandardOutput
         StandardError ExecStart WantedBy] in Heq.
  injection Heq as Hd Ht Hu Hg Hn Hr Hrs Hso Hse He Hw.
  apply Sprintd_inj in Hn. subst. repeat split.
Qed.

(** X14: the serialization of package system loses nothing: two
    configurations whose string fields hold no line feed and that are
    written to the same text are the same configuration. *)
Theorem X14_ToString_injective (c1 c2 : System.SystemdServiceConfig) :
  UnitFile.singleLineFields (System.Unit c1) (System.Service c1) (System.Install c1) = true ->
  UnitFile.singleLineFields (System.Unit c2) (System.Service c2) (System.Install c2) = true ->
  System.ToString c1 = System.ToString c2 ->
  c1 = c2.
Proof.
  intros H1 H2 Heq. rewrite !System_ToString_lines in Heq.
  destruct (configLines_inj "Service" _ _ _ _ _ _ eq_refl H1 H2 Heq) as (Hu & Hs & Hi).
  destruct c1, c2. cbn in Hu, Hs, Hi. now subst.
Qed.

Lemma X14_ToString_injective_witness :
  System.NewServiceConfig sampleEnv "pocketbase" "~/pb" "pocketbase serve x.com" None
  = System.NewServiceConfig sampleEnv "pocketbase" "~/pb/." "pocketbase serve x.com"
      (Some defaultOptions).
Proof.
  apply (X14_ToString_injective
           (System.NewServiceConfig sampleEnv "pocketbase" "~/pb" "pocketbase serve x.com" None)
           (System.NewServiceConfig sampleEnv "pocketbase" "~/pb/." "pocketbase serve x.com"
              (Some defaultOptions))); reflexivity.
Defined.

(** X15: the serialization of package systemd returns no error, writes
    the three sections and never the save path: two configurations with
    single-line fields are written to the same text exactly when their
    Unit, service and Install sections are equal, whatever their [Path]. *)
Theorem X15_systemd_ToString_ignores_Path (d1 d2 : Systemd.SystemdServiceConfig) :
  UnitFile.singleLineFields (Systemd.Unit d1) (Systemd.SystemdService d1) (Systemd.Install d1) = true ->
  UnitFile.singleLineFields (Systemd.Unit d2) (Systemd.SystemdService d2) (Systemd.Install d2) = true ->
  snd (Systemd.ToString d1) = None
  /\ (fst (Systemd.ToString d1) = fst (Systemd.ToString d2)
      <-> Systemd.Unit d1 = Systemd.Unit d2
          /\ Systemd.SystemdService d1 = Systemd.SystemdService d2
          /\ Systemd.Install d1 = Systemd.Install d2).
Proof.
  intros H1 H2. split; [reflexivity|]. rewrite !Systemd_ToString_lines. split.
  - intros Heq. exact (configLines_inj "SystemdService" _ _ _ _ _ _ eq_refl H1 H2 Heq).
  - intros (-> & -> & ->). reflexivity.
Qed.

Lemma X15_systemd_ToString_ignores_Path_witness :
  fst (Systemd.ToString (Main.exampleConfig sampleEnv))
  = fst (Systemd.ToString
           {| Systemd.Unit := Systemd.Unit (Main.exampleConfig sampleEnv);
              Systemd.SystemdService := Systemd.SystemdService (Main.exampleConfig sampleEnv);
              Systemd.Install := Systemd.Install (Main.exampleConfig sampleEnv);
              Systemd.Path := "/tmp/elsewhere.service" |}).
Proof.
  apply (X15_systemd_ToString_ignores_Path (Main.exampleConfig sampleEnv)
           {| Systemd.Unit := Systemd.Unit (Main.exampleConfig sampleEnv);
              Systemd.SystemdService := Systemd.SystemdService (Main.exampleConfig sampleEnv);
              Systemd.Install := Systemd.Install (Main.exampleConfig sampleEnv);
              Systemd.Path := "/tmp/elsewhere.service" |});
    try reflexivity.
  repeat split.
Defined.

(* ================================================================== *)
(** ** Construction then serialization                                 *)
(* ================================================================== *)

Section OneLine.

Import PathSpec UnitFile.

Lemma elements_one_line (path : string) :
  lineFree path -> Forall lineFree (filepath.elements path).
Proof.
  unfold lineFree. induction path as [|c r IH]; intros Hp.
  - repeat constructor.
  - cbn [hasByte] in Hp. apply orb_false_iff in Hp as [Hc Hr].
    specialize (IH Hr). cbn [filepath.elements].
    destruct (Ascii.eqb c filepath.Separator).
    + constructor; [reflexivity | exact IH].
    + destruct (filepath.elements r) as [|e rest].
      * repeat constructor. cbn [hasByte]. now rewrite Hc.
      * inversion IH; subst. constructor; [|assumption].
        cbn [hasByte]. now rewrite Hc.
Qed.

Lemma cleanStep_one_line (rooted : bool) (out : list string) (e : string) :
  Forall lineFree out -> lineFree e ->
  Forall lineFree (filepath.cleanStep rooted out e).
Proof.
  intros Hout He. unfold filepath.cleanStep.
  destruct ((e =? "")%string || (e =? ".")%string); [assumption|].
  destruct (e =? "..")%string; [|now constructor].
  destruct out as [|top rest].
  - destruct rooted; repeat constructor.
  - destruct (top =? "..")%string.
    + constructor; [reflexivity | assumption].
    + now inversion Hout.
Qed.

Lemma fold_cleanStep_one_line (rooted : bool) (es out : list string) :
  Forall lineFree es -> Forall lineFree out ->
  Forall lineFree (fold_left (filepath.cleanStep rooted) es out).
Proof.
  revert out. induction es as [|e es IH]; intros out Hes Hout; [exact Hout|].
  inversion Hes; subst. cbn [fold_left]. apply IH; [assumption|].
  now apply cleanStep_one_line.
Qed.

Lemma strings_Join_one_line (es : list string) :
  Forall lineFree es -> lineFree (strings.Join es "/").
Proof.
  unfold lineFree. induction 1 as [|e es He Hes IH]; [reflexivity|].
  destruct es as [|e2 es]; [exact He|].
  change (strings.Join (e :: e2 :: es) "/")
    with (e ++ "/" ++ strings.Join (e2 :: es) "/").
  rewrite !hasByte_append, He, IH. reflexivity.
Qed.

Lemma Clean_one_line (path : string) :
  lineFree path -> lineFree (filepath.Clean path).
Proof.
  intros Hp. unfold filepath.Clean.
  pose proof (fun rooted =>
                Forall_rev (fold_cleanStep_one_line rooted (filepath.elements path) []
                              (elements_one_line path Hp) (Forall_nil _))) as Hout.
  destruct (strings.HasPrefix path "/").
  - unfold lineFree. rewrite hasByte_append.
    now rewrite (strings_Join_one_line _ (Hout true)).
  - specialize (Hout false).
    destruct (rev (fold_left (filepath.cleanStep false) (filepath.elements path) []));
      [reflexivity|].
    now apply strings_Join_one_line.
Qed.

Lemma filepath_Join_one_line (es : list string) :
  Forall lineFree es -> lineFree (filepath.Join es).
Proof.
  induction 1 as [|e es He Hes IH]; [reflexivity|].
  cbn [filepath.Join]. destruct (e =? "")%string; [exact IH|].
  apply Clean_one_line, strings_Join_one_line. now constructor.
Qed.

Lemma sliceFrom_one_line (n : nat) (s : string) :
  lineFree s -> lineFree (sliceFrom n s).
Proof.
  unfold lineFree. revert s. induction n as [|n IH]; intros s Hs.
  - destruct s; exact Hs.
  - destruct s as [|c r]; [exact Hs|].
    cbn [hasByte] in Hs. apply orb_false_iff in Hs as [_ Hr].
    cbn [sliceFrom]. now apply IH.
Qed.

Lemma baseDir_one_line (env : Env) (baseDir : string) :
  singleLineEnv env = true ->
  lineFree baseDir ->
  lineFree (absOrEmpty env (expandHome env baseDir)).
Proof.
  unfold singleLineEnv, oneLine. rewrite andb_true_iff, negb_true_iff.
  intros [Hhome Hwd] Hbase.
  assert (Hexp : lineFree (expandHome env baseDir)).
  { unfold expandHome, os.UserHomeDir.
    destruct (strings.HasPrefix baseDir "~/"); [|exact Hbase].
    destruct (HOME env =? "")%string; [exact Hbase|].
    apply filepath_Join_one_line. repeat constructor; [exact Hhome|].
    now apply sliceFrom_one_line. }
  unfold absOrEmpty, filepath.Abs.
  destruct (filepath.IsAbs (expandHome env baseDir)).
  - now apply Clean_one_line.
  - destruct (Getwd env) as [wd|]; [|reflexivity].
    apply negb_true_iff in Hwd.
    apply filepath_Join_one_line. now repeat constructor.
Qed.

(** The sections built from single-line arguments are single-line. *)
Lemma built_sections_one_line (env : Env) (serviceName baseDir execCommand : string)
  (opts : option ConfigOptions) :
  singleLineEnv env = true ->
  oneLine serviceName = true ->
  oneLine baseDir = true ->
  oneLine execCommand = true ->
  singleLineOptions opts = true ->
  singleLineFields
    (System.Unit (System.NewServiceConfig env serviceName baseDir execCommand opts))
    (System.Service (System.NewServiceConfig env serviceName baseDir execCommand opts))
    (System.Install (System.NewServiceConfig env serviceName baseDir execCommand opts))
  = true.
Proof.
  intros Henv Hname Hbase Hcmd Hopts.
  unfold oneLine in Hname, Hbase, Hcmd. rewrite negb_true_iff in Hname, Hbase, Hcmd.
  pose proof (baseDir_one_line env baseDir Henv Hbase) as Hdir.
  assert (Hlog : oneLine ("append:" ++ filepath.Join
                            [absOrEmpty env (expandHome env baseDir); "logs"; "service.log"])
                 = true).
  { unfold oneLine. rewrite negb_true_iff, hasByte_append.
    rewrite (filepath_Join_one_line
               [absOrEmpty env (expandHome env baseDir); "logs"; "service.log"])
      by now repeat constructor.
    reflexivity. }
  assert (Hexec : oneLine (filepath.Join [absOrEmpty env (expandHome env baseDir); execCommand])
                  = true).
  { unfold oneLine. rewrite negb_true_iff.
    apply filepath_Join_one_line. now repeat constructor. }
  assert (Hdesc : oneLine (serviceName ++ " service") = true).
  { unfold oneLine. now rewrite negb_true_iff, hasByte_append, Hname. }
  unfold singleLineFields.
  change (Description (System.Unit (System.NewServiceConfig env serviceName baseDir
                                      execCommand opts)))
    with (serviceName ++ " service").
  change (StandardOutput (System.Service (System.NewServiceConfig env serviceName baseDir
                                            execCommand opts)))
    with ("append:" ++ filepath.Join
                         [absOrEmpty env (expandHome env baseDir); "logs"; "service.log"]).
  change (StandardError (System.Service (System.NewServiceConfig env serviceName baseDir
                                           execCommand opts)))
    with ("append:" ++ filepath.Join
                         [absOrEmpty env (expandHome env baseDir); "logs"; "service.log"]).
  change (ExecStart (System.Service (System.NewServiceConfig env serviceName baseDir
                                       execCommand opts)))
    with (filepath.Join [absOrEmpty env (expandHome env baseDir); execCommand]).
  rewrite Hdesc, Hlog, Hexec.
  destruct opts as [o|]; [|reflexivity].
  cbn [singleLineOptions] in Hopts.
  repeat (apply andb_true_iff in Hopts as [Hopts ?]).
  cbn [System.NewServiceConfig System.Service System.Install Type_ User Group Restart
         RestartSec WantedBy].
  repeat match goal with H : oneLine _ = true |- _ => rewrite H; clear H end.
  reflexivity.
Qed.

End OneLine.

(** X16: construction then serialization.  From a service name, a base
    directory, a command, overrides, a home directory and a working
    directory that hold no line feed, either package writes a text with
    exactly the lines of a unit file: the Unit header and Description,
    a blank line, the service header ([[Service]], in package systemd
    [[SystemdService]]) and its nine entries, a blank line, the Install
    header and WantedBy. *)
Theorem X16_built_unit_file_layout
  (env : Env) (serviceName baseDir execCommand : string) (opts : option ConfigOptions) :
  singleLineEnv env = true ->
  UnitFile.oneLine serviceName = true ->
  UnitFile.oneLine baseDir = true ->
  UnitFile.oneLine execCommand = true ->
  singleLineOptions opts = true ->
  UnitFile.layout
    (System.ToString (System.NewServiceConfig env serviceName baseDir execCommand opts))
  = UnitFile.expectedLayout "Service"
  /\ UnitFile.layout
       (fst (Systemd.ToString
               (Systemd.NewSystemdServiceConfig env serviceName baseDir execCommand opts)))
     = UnitFile.expectedLayout "SystemdService".
Proof.
  intros Henv Hname Hbase Hcmd Hopts.
  pose proof (built_sections_one_line env serviceName baseDir execCommand opts
                Henv Hname Hbase Hcmd Hopts) as Hfields.
  split.
  - rewrite System_ToString_lines. now apply layout_configLines.
  - rewrite Systemd_ToString_lines. now apply layout_configLines.
Qed.

Lemma X16_built_unit_file_layout_witness :
  UnitFile.layout
    (System.ToString (System.NewServiceConfig sampleEnv "my-node-server" "~/my-node-server"
                        "node /dist/index.js" (Some exampleOptions)))
  = UnitFile.expectedLayout "Service"
  /\ UnitFile.layout
       (fst (Systemd.ToString
               (Systemd.NewSystemdServiceConfig sampleEnv "my-node-server" "~/my-node-server"
                  "node /dist/index.js" (Some exampleOptions))))
     = UnitFile.expectedLayout "SystemdService".
Proof.
  apply (X16_built_unit_file_layout sampleEnv "my-node-server" "~/my-node-server"
           "node /dist/index.js" (Some exampleOptions)); reflexivity.
Defined.

(* ================================================================== *)
(** ** More on the handlers                                            *)
(* ================================================================== *)

Lemma prefix_test (path : string) :
  (2 <=? String.length path)%nat && negb (sliceTo 2 path =? "~/")%string
  = (2 <=? String.length path)%nat && negb (strings.HasPrefix path "~/").
Proof.
  destruct path as [|a [|b r]]; reflexivity.
Qed.

(** Every accepted form is answered like [GET /new]. *)
Lemma post_accepted (env : Env) (c c' : Main.Request) :
  Main.status (Main.postServiceNew env c) = Main.StatusOK ->
  Main.postServiceNew env c = Main.getNew env c'.
Proof.
  unfold Main.postServiceNew, Main.getNew.
  destruct (Main.FormValue c "name" =? "")%string; [discriminate|].
  destruct (Main.FormValue c "path" =? "")%string; [discriminate|].
  destruct ((2 <=? _)%nat && _); [discriminate | reflexivity].
Qed.

(** Exactly the rejected forms are answered 400. *)
Lemma post_rejected_iff (env : Env) (c : Main.Request) :
  Main.status (Main.postServiceNew env c) = Main.StatusBadRequest <-> rejected c.
Proof.
  unfold Main.postServiceNew, rejected. rewrite prefix_test.
  destruct (String.eqb_spec (Main.FormValue c "name") "") as [Hn|Hn].
  { split; [now left | reflexivity]. }
  destruct (String.eqb_spec (Main.FormValue c "path") "") as [Hp|Hp].
  { split; [now (right; left) | reflexivity]. }
  set (path := strings.TrimSpace (Main.FormValue c "path")).
  destruct (Nat.leb_spec 2 (String.length path)) as [Hlen|Hlen]; cbn [andb].
  - destruct (strings.HasPrefix path "~/") eqn:Hpre; cbn [negb].
    + split; [discriminate|].
      intros [H | [H | [_ H]]]; [contradiction | contradiction | discriminate].
    + split; [|reflexivity]. intros _. right. right. now split.
  - split; [discriminate|].
    intros [H | [H | [H _]]]; [contradiction | contradiction | lia].
Qed.

(** X17: the handler of [POST /service/new] answers 200 or 400, and 400
    exactly for the forms without name, without path, or whose trimmed
    path has two bytes or more and does not begin with [~/]. *)
Theorem X17_post_rejects_exactly (env : Env) (c : Main.Request) :
  (Main.status (Main.postServiceNew env c) = Main.StatusBadRequest <-> rejected c)
  /\ (Main.status (Main.postServiceNew env c) = Main.StatusOK
      \/ Main.status (Main.postServiceNew env c) = Main.StatusBadRequest).
Proof.
  split; [apply post_rejected_iff|].
  unfold Main.postServiceNew.
  destruct (Main.FormValue c "name" =? "")%string; [now right|].
  destruct (Main.FormValue c "path" =? "")%string; [now right|].
  destruct ((2 <=? _)%nat && _); [now right | now left].
Qed.

Lemma X17_post_rejects_exactly_witness :
  Main.status (Main.postServiceNew sampleEnv (formOf "svc" "  /etc/svc ")) = Main.StatusBadRequest.
Proof.
  apply (proj1 (X17_post_rejects_exactly sampleEnv (formOf "svc" "  /etc/svc "))).
  right. right. split; [cbn; lia | reflexivity].
Defined.

(** X18: the name is checked first.  A form without name is answered
    [name is required] whatever its path; a form with a name and without
    path is answered [path is required]; every other rejected form is
    answered [path must be absolute, try ~/path/to/service]. *)
Theorem X18_post_rejection_messages (env : Env) (c : Main.Request) :
  rejected c ->
  Main.body (Main.postServiceNew env c)
  = (if (Main.FormValue c "name" =? "")%string then "name is required"
     else if (Main.FormValue c "path" =? "")%string then "path is required"
     else "path must be absolute, try ~/path/to/service").
Proof.
  intros Hrej.
  apply (post_rejected_iff env) in Hrej. revert Hrej. unfold Main.postServiceNew.
  destruct (Main.FormValue c "name" =? "")%string; [reflexivity|].
  destruct (Main.FormValue c "path" =? "")%string; [reflexivity|].
  destruct ((2 <=? _)%nat && _); [reflexivity | discriminate].
Qed.

Lemma X18_post_rejection_messages_witness :
  Main.body (Main.postServiceNew sampleEnv {| Main.form := [("path", "/etc")] |})
  = (if (Main.FormValue {| Main.form := [("path", "/etc")] |} "name" =? "")%string
     then "name is required"
     else if (Main.FormValue {| Main.form := [("path", "/etc")] |} "path" =? "")%string
          then "path is required"
          else "path must be absolute, try ~/path/to/service").
Proof.
  apply (X18_post_rejection_messages sampleEnv {| Main.form := [("path", "/etc")] |}).
  left. reflexivity.
Defined.

(** X19: a form that is accepted gets exactly what [GET /new] returns:
    the same status and the same body, whatever either request holds. *)
Theorem X19_post_accepted_is_get_new (env : Env) (c c' : Main.Request) :
  Main.status (Main.postServiceNew env c) = Main.StatusOK ->
  Main.postServiceNew env c = Main.getNew env c'.
Proof. apply post_accepted. Qed.

Lemma X19_post_accepted_is_get_new_witness :
  Main.postServiceNew sampleEnv (formOf "nginx" "~/www")
  = Main.getNew sampleEnv {| Main.form := [] |}.
Proof.
  apply (X19_post_accepted_is_get_new sampleEnv (formOf "nginx" "~/www")
           {| Main.form := [] |}).
  reflexivity.
Defined.

(** X20: under a home directory and a working directory without line
    feed, every body sent with status 200 by [GET /new] (in both variants
    of main.go) and by [POST /service/new] has the lines of a unit
    file. *)
Theorem X20_served_unit_files_layout (env : Env) (c : Main.Request) :
  singleLineEnv env = true ->
  UnitFile.layout (Main.body (MainSystem.getNew env c)) = UnitFile.expectedLayout "Service"
  /\ UnitFile.layout (Main.body (Main.getNew env c))
     = UnitFile.expectedLayout "SystemdService"
  /\ (Main.status (Main.postServiceNew env c) = Main.StatusOK ->
      UnitFile.layout (Main.body (Main.postServiceNew env c))
      = UnitFile.expectedLayout "SystemdService").
Proof.
  intros Henv.
  pose proof (built_sections_one_line env "pocketbase" "~/pb"
                "pocketbase serve yourdomain.com" (Some exampleOptions)
                Henv eq_refl eq_refl eq_refl eq_refl) as Hfields.
  assert (Hsystemd : UnitFile.layout (Main.body (Main.getNew env c))
                     = UnitFile.expectedLayout "SystemdService").
  { unfold Main.getNew. cbn [Main.body]. rewrite Systemd_ToString_lines.
    now apply layout_configLines. }
  split; [|split].
  - unfold MainSystem.getNew. cbn [Main.body]. rewrite System_ToString_lines.
    now apply layout_configLines.
  - exact Hsystemd.
  - intros Hok. now rewrite (post_accepted env c c Hok).
Qed.

Lemma X20_served_unit_files_layout_witness :
  UnitFile.layout (Main.body (MainSystem.getNew sampleEnv (formOf "nginx" "~/www")))
  = UnitFile.expectedLayout "Service"
  /\ UnitFile.layout (Main.body (Main.getNew sampleEnv (formOf "nginx" "~/www")))
     = UnitFile.expectedLayout "SystemdService"
  /\ UnitFile.layout (Main.body (Main.postServiceNew sampleEnv (formOf "nginx" "~/www")))
     = UnitFile.expectedLayout "SystemdService".
Proof.
  destruct (X20_served_unit_files_layout sampleEnv (formOf "nginx" "~/www") eq_refl)
    as (Hsys & Hget & Hpost).
  split; [exact Hsys | split; [exact Hget | apply Hpost; reflexivity]].
Defined.

(** X21: [GET /services] never answers an error status: when the listing
    command fails the process ends, otherwise the answer is 200 with
    well-formed records. *)
Theorem X21_get_services_outcomes (cmd : ExecResult) (partialName : string) :
  (Main.getServices cmd partialName = Fatal <-> cmd = ExecError)
  /\ forall code services,
       Main.getServices cmd partialName = Returned (code, services) ->
       code = Main.StatusOK /\ Forall wellFormedRecord services.
Proof.
  unfold Main.getServices, Services.GetSystemDServices.
  destruct cmd as [output|].
  - split; [split; discriminate|].
    intros code services [= <- <-]. split; [reflexivity | apply scanAll_wellFormed].
  - split; [split; reflexivity|]. intros code services H. discriminate.
Qed.

Lemma X21_get_services_outcomes_witness :
  200 = Main.StatusOK
  /\ Forall wellFormedRecord (Services.scanAll "cron" (strings.ScanLines sampleOutput)).
Proof.
  apply (proj2 (X21_get_services_outcomes (ExecOutput sampleOutput) "cron")).
  reflexivity.
Defined.
